(** * autoencoder_hulm: the trial scripts, embedded and checked

    A shallow embedding of the two scripts under [trials/]:
    - [trials/control_trials.py]: [pick_gpu], [MyPrunerCallback];
    - [trials/trials_eval_callback.py]: [evalLogsCallback],
      [compute_objective], [pick_gpu].

    Python code is modelled as state passing over a [world] (object heap,
    process environment, files, standard output, log), with exceptions as
    an explicit outcome.  The search itself (sampler, pruner, study loop)
    is code of the optuna and transformers libraries, which the scripts
    only call; it appears here as an interface, never as a definition. *)

From Stdlib Require Import ZArith String Ascii List Lia.
From stdpp Require Import gmap strings list fin_maps pretty.

Local Open Scope string_scope.
Local Open Scope Z_scope.

(** ** Python values, exceptions and the world *)

(** Floats are carried, never computed on: the carrier is a parameter of
    the few definitions that render them as text. *)
Inductive pyval (float : Type) : Type :=
| VNone
| VBool (b : bool)
| VInt (z : Z)
| VFloat (f : float)
| VStr (s : string).
Arguments VNone {float}.
Arguments VBool {float} b.
Arguments VInt {float} z.
Arguments VFloat {float} f.
Arguments VStr {float} s.

(** The exceptions the two scripts can raise or let through. *)
Inductive exn : Type :=
| NameError (name : string)
| KeyError (key : string)
| AttributeError (attr : string)
| IndexError
| ValueError
| TypeError
| OverflowError
| OSError
| UnicodeDecodeError
| CalledProcessError
| TrialPruned.

Inductive outcome (A : Type) : Type :=
| Ret (a : A)
| Raise (e : exn).
Arguments Ret {A} a.
Arguments Raise {A} e.

Definition loc := positive.

Section world.
Context {float : Type}.

(** Heap objects: a [dict] with string keys and scalar values, or an
    [evalLogsCallback] instance, whose one attribute [metrics] refers to a
    dict. *)
Inductive obj : Type :=
| ODict (d : gmap string (pyval float))
| OCallback (metrics : loc).

(** What a file holds: nothing yet, or the JSON document that
    [json.dump(d, f, indent=4, sort_keys=True)] wrote for the dict [d]
    (the text is a function of [d]; its layout is not modelled). *)
Inductive content : Type :=
| Empty
| JsonDoc (d : gmap string (pyval float)).

(** What one call of [print] wrote: its arguments, in order. *)
Inductive printed : Type :=
| PStr (s : string)
| PDict (d : gmap string (pyval float)).

Record world : Type := World {
  heap : gmap loc obj;
  environ : gmap string string;          (* os.environ *)
  files : gmap string content;           (* path to content *)
  can_write : string → bool;             (* paths open(path, "w") succeeds on *)
  stdout : list (list printed);
  logged : list string;                  (* messages given to logger.info *)
}.

Definition py (A : Type) : Type := world → outcome A * world.

#[global] Instance py_ret : MRet py := λ A a w, (Ret a, w).
#[global] Instance py_bind : MBind py := λ A B f m w,
  match m w with
  | (Ret a, w') => f a w'
  | (Raise e, w') => (Raise e, w')
  end.

Definition raise {A} (e : exn) : py A := λ w, (Raise e, w).

Definition lift {A} (o : outcome A) : py A := λ w, (o, w).

Definition print (args : list printed) : py unit := λ w,
  (Ret tt, World (heap w) (environ w) (files w) (can_write w)
                 (stdout w ++ [args]) (logged w)).

Definition setenv (k v : string) : py unit := λ w,
  (Ret tt, World (heap w) (<[k:=v]> (environ w)) (files w) (can_write w)
                 (stdout w) (logged w)).

Definition log_info (msg : string) : py unit := λ w,
  (Ret tt, World (heap w) (environ w) (files w) (can_write w)
                 (stdout w) (logged w ++ [msg])).

Definition set_heap (h : gmap loc obj) (w : world) : world :=
  World h (environ w) (files w) (can_write w) (stdout w) (logged w).

Definition set_files (fs : gmap string content) (w : world) : world :=
  World (heap w) (environ w) fs (can_write w) (stdout w) (logged w).

(** A new object gets an address no object has yet. *)
Definition alloc (o : obj) : py loc := λ w,
  let l := fresh (dom (heap w)) in (Ret l, set_heap (<[l:=o]> (heap w)) w).

(** [d[k]] *)
Definition dict_getitem (l : loc) (k : string) : py (pyval float) := λ w,
  match heap w !! l with
  | Some (ODict d) =>
      match d !! k with
      | Some v => (Ret v, w)
      | None => (Raise (KeyError k), w)
      end
  | _ => (Raise TypeError, w)
  end.

(** [d[k] = v]: the object [l] itself changes, for every holder of [l]. *)
Definition dict_setitem (l : loc) (k : string) (v : pyval float) : py unit := λ w,
  match heap w !! l with
  | Some (ODict d) => (Ret tt, set_heap (<[l:=ODict (<[k:=v]> d)]> (heap w)) w)
  | _ => (Raise TypeError, w)
  end.

(** [d.copy()]: a new dict with the same items. *)
Definition dict_copy (l : loc) : py loc := λ w,
  match heap w !! l with
  | Some (ODict d) => alloc (ODict d) w
  | _ => (Raise (AttributeError "copy"), w)
  end.

(** [d.pop(k, default)] *)
Definition dict_pop (l : loc) (k : string) (default : pyval float)
  : py (pyval float) := λ w,
  match heap w !! l with
  | Some (ODict d) =>
      match d !! k with
      | Some v => (Ret v, set_heap (<[l:=ODict (delete k d)]> (heap w)) w)
      | None => (Ret default, w)
      end
  | _ => (Raise (AttributeError "pop"), w)
  end.

(** [copy.deepcopy(x)]: values of a dict are immutable scalars, so the
    copy of a dict is a new dict with the same items; the copy of a
    callback is a new callback on a copy of its metrics. *)
Definition deepcopy (l : loc) : py loc := λ w,
  match heap w !! l with
  | Some (ODict d) => alloc (ODict d) w
  | Some (OCallback m) =>
      match heap w !! m with
      | Some (ODict d) => (m' ← alloc (ODict d); alloc (OCallback m')) w
      | _ => (Raise TypeError, w)
      end
  | None => (Raise TypeError, w)
  end.

(** [self.metrics] and [self.metrics = m] *)
Definition get_metrics (self : loc) : py loc := λ w,
  match heap w !! self with
  | Some (OCallback m) => (Ret m, w)
  | _ => (Raise (AttributeError "metrics"), w)
  end.

Definition set_metrics (self m : loc) : py unit := λ w,
  match heap w !! self with
  | Some (OCallback _) => (Ret tt, set_heap (<[self:=OCallback m]> (heap w)) w)
  | _ => (Raise (AttributeError "metrics"), w)
  end.

(** [open(path, "w")]: fails, or leaves the file empty. *)
Definition open_w (path : string) : py unit := λ w,
  if can_write w path then (Ret tt, set_files (<[path:=Empty]> (files w)) w)
  else (Raise OSError, w).

(** [json.dump(x, f, indent=4, sort_keys=True)] with [f] open on [path]. *)
Definition json_dump (x : loc) (path : string) : py unit := λ w,
  match heap w !! x with
  | Some (ODict d) => (Ret tt, set_files (<[path:=JsonDoc d]> (files w)) w)
  | _ => (Raise TypeError, w)
  end.

End world.

Arguments obj : clear implicits.
Arguments content : clear implicits.
Arguments printed : clear implicits.
Arguments world : clear implicits.
Arguments py : clear implicits.

(** ** Strings: the [str] and [bytes] methods the scripts use *)

(** [bytes.decode('ascii')]: every byte must be below 128. *)
Definition is_ascii (a : ascii) : bool := (nat_of_ascii a <? 128)%nat.

Definition decode_ascii (b : string) : outcome string :=
  if forallb is_ascii (list_ascii_of_string b) then Ret b
  else Raise UnicodeDecodeError.

(** [s.split(c)] for a one-character separator: never the empty list. *)
Fixpoint split_char (c : ascii) (s : string) : list string :=
  match s with
  | EmptyString => [EmptyString]
  | String a s' =>
      if Ascii.eqb a c then EmptyString :: split_char c s'
      else match split_char c s' with
           | [] => [String a EmptyString]
           | hd :: tl => String a hd :: tl
           end
  end.

(** [l[:-1]] and [l[1:]]; both leave the empty list empty. *)
Definition drop_last {A} (l : list A) : list A := removelast l.
Definition drop_first {A} (l : list A) : list A := tl l.

(** The ASCII characters [str.isspace] accepts: tab, line feed, vertical
    tab, form feed, carriage return, the four separators 28 to 31, space. *)
Definition is_space (a : ascii) : bool :=
  let n := nat_of_ascii a in
  ((9 <=? n) && (n <=? 13) || (28 <=? n) && (n <=? 32))%nat.

(** [s.split()]: the maximal runs of non-space characters.  [split_ws_go]
    returns the run that starts at the head of [s] (empty if none does)
    and the runs after it. *)
Fixpoint split_ws_go (s : string) : string * list string :=
  match s with
  | EmptyString => (EmptyString, [])
  | String a s' =>
      let '(tok, toks) := split_ws_go s' in
      if is_space a
      then (EmptyString,
            match tok with EmptyString => toks | _ => tok :: toks end)
      else (String a tok, toks)
  end.

Definition split_ws (s : string) : list string :=
  let '(tok, toks) := split_ws_go s in
  match tok with EmptyString => toks | _ => tok :: toks end.

(** [int(s)] on a string without surrounding space: an optional sign, then
    decimal digits, single underscores allowed between digits.  (The cap
    that recent interpreters put on the number of digits is left out.) *)
Definition digit_val (a : ascii) : option Z :=
  let n := nat_of_ascii a in
  if ((48 <=? n) && (n <=? 57))%nat then Some (Z.of_nat n - 48) else None.

Fixpoint parse_digits (acc : Z) (after_digit : bool) (s : string) : option Z :=
  match s with
  | EmptyString => if after_digit then Some acc else None
  | String a s' =>
      match digit_val a with
      | Some d => parse_digits (10 * acc + d) true s'
      | None =>
          if Ascii.eqb a "_" && after_digit then parse_digits acc false s'
          else None
      end
  end.

Definition py_int (s : string) : outcome Z :=
  let signed :=
    match s with
    | String "+" s' => parse_digits 0 false s'
    | String "-" s' => Z.opp <$> parse_digits 0 false s'
    | _ => parse_digits 0 false s
    end in
  match signed with
  | Some z => Ret z
  | None => Raise ValueError
  end.

(** [l[0]] *)
Definition first_item {A} (l : list A) : outcome A :=
  match l with
  | [] => Raise IndexError
  | x :: _ => Ret x
  end.

(** A list comprehension whose element expression can raise: it stops at
    the first element that does. *)
Fixpoint comprehension {A B} (f : A → outcome B) (l : list A) : outcome (list B) :=
  match l with
  | [] => Ret []
  | x :: l' =>
      match f x with
      | Raise e => Raise e
      | Ret y =>
          match comprehension f l' with
          | Raise e => Raise e
          | Ret ys => Ret (y :: ys)
          end
      end
  end.

(** [str(v)], which is also what ['{}'.format(v)] and an f-string field
    give; [float_str] is the interpreter's rendering of a float. *)
Definition py_str {float : Type} (float_str : float → string)
    (v : pyval float) : string :=
  match v with
  | VNone => "None"
  | VBool true => "True"
  | VBool false => "False"
  | VInt z => pretty z
  | VFloat f => float_str f
  | VStr s => s
  end.

(** ** [control_trials.py] *)

(** What the script uses of an optuna trial: [trial.report(value, step)]
    and [trial.should_prune()].  Both belong to the library; [T] is
    whatever state the library keeps for the study and its trials. *)
Class Trial (float T : Type) : Type := {
  report : pyval float → pyval float → T → outcome unit * T;
  should_prune : T → outcome bool * T;
}.

Module control_trials.
Section pick_gpu.
Context {float : Type}.

(** [int(x.split()[0])] *)
Definition free_value (x : string) : outcome Z :=
  match first_item (split_ws x) with
  | Raise e => Raise e
  | Ret tok => py_int tok
  end.

(** The two lines that turn the output of nvidia-smi into numbers: decode,
    split into lines, drop the last piece and the header, read the first
    word of each line. *)
Definition memory_free_values (raw : string) : outcome (list Z) :=
  match decode_ascii raw with
  | Raise e => Raise e
  | Ret text =>
      comprehension free_value
        (drop_first (drop_last (split_char "010"%char text)))
  end.

(** [for j in range(len(values)): if values[j] == 48676: ...; break],
    entered at index [j] with the values from [j] on. *)
Fixpoint pick_loop (j : nat) (values : list Z) : py float unit :=
  match values with
  | [] => mret tt
  | v :: rest =>
      if decide (v = 48676) then
        print [PStr ("using GPU " +:+ pretty j)];;
        setenv "CUDA_VISIBLE_DEVICES" (pretty j)
      else pick_loop (S j) rest
  end.

(** [smi] is what [sp.check_output] gives for the nvidia-smi query: the
    bytes it printed, or the exception of a failed call. *)
Definition pick_gpu (smi : outcome string) : py float unit :=
  raw ← lift smi;
  values ← lift (memory_free_values raw);
  pick_loop 0 values.

End pick_gpu.

(** *** [MyPrunerCallback] *)
Section MyPrunerCallback.
Context {float T : Type} `{!Trial float T}.
Variable float_str : float → string.

(** [kwargs['metrics']['eval_loss']] *)
Definition current_eval_loss (kwargs : gmap string loc)
  : py float (pyval float) :=
  metrics ← lift (match kwargs !! "metrics" with
                  | Some l => Ret l
                  | None => Raise (KeyError "metrics")
                  end);
  dict_getitem metrics "eval_loss".

(** [on_evaluate]; [epoch] is [state.epoch], [t] the state behind
    [self.trial].  The library's state is returned on every path, an
    exception included: what [report] recorded stays recorded. *)
Definition on_evaluate (epoch : pyval float) (kwargs : gmap string loc)
    (t : T) (w : world float) : outcome unit * T * world float :=
  match current_eval_loss kwargs w with
  | (Raise e, w1) => (Raise e, t, w1)
  | (Ret loss, w1) =>
      match report loss epoch t with
      | (Raise e, t1) => (Raise e, t1, w1)
      | (Ret _, t1) =>
          match should_prune t1 with
          | (Raise e, t2) => (Raise e, t2, w1)
          | (Ret true, t2) => (Raise TrialPruned, t2, w1)
          | (Ret false, t2) =>
              (Ret tt, t2,
               snd (print [PStr ("Epoch " +:+ py_str float_str epoch
                                 +:+ ": trial not pruned with eval loss "
                                 +:+ py_str float_str loss)] w1))
          end
      end
  end.

End MyPrunerCallback.

(** *** [objective], lines 125 and 126: where a trial's run goes

    [trial.number] is the position of the trial in the study, from 0. *)

(** [f"{run_name}_{trial.number}"] *)
Definition objective_run_name (run_name : string) (number : nat) : string :=
  run_name +:+ "_" +:+ pretty number.

(** [f"{model_path}/{args.run_name}"] *)
Definition objective_output_dir (model_path run_name : string)
    (number : nat) : string :=
  model_path +:+ "/" +:+ objective_run_name run_name number.

End control_trials.


(** ** [trials_eval_callback.py] *)

(** [s.split(sep)[0]]: what stands before the first [sep] in [s], all of
    [s] when [sep] does not occur. *)
Fixpoint before_first (sep s : string) : string :=
  if String.prefix sep s then EmptyString
  else match s with
       | EmptyString => EmptyString
       | String a s' => String a (before_first sep s')
       end.

Definition ends_with_slash (s : string) : bool :=
  match last (list_ascii_of_string s) with
  | Some a => Ascii.eqb a "/"
  | None => false
  end.

(** [os.path.join(a, b)] of posixpath. *)
Definition os_path_join (a b : string) : string :=
  if String.prefix "/" b then b
  else if (String.eqb a EmptyString || ends_with_slash a)%bool then a +:+ b
  else a +:+ "/" +:+ b.

Module trials_eval_callback.

(** *** The names of the module

    A name used in a function body that is not local is looked up in the
    module's globals, then in the builtins.  The globals are bound by the
    top-level statements in order, a later binding replacing an earlier
    one; what the two wildcard imports of lines 5 and 6 bind is known only
    to the imported modules, and is a parameter here. *)

(** Bound by lines 1 to 4, before the wildcard imports. *)
Definition bound_before_star : list string :=
  ["load_from_disk"; "AutoTokenizer"; "AutoModelForMaskedLM"].

(** Bound from line 7 on: the remaining imports, then the functions, the
    logger, the class and the variables of the main part. *)
Definition bound_after_star : list string :=
  ["TrainingArguments"; "DataCollatorForLanguageModeling"; "Trainer";
   "EarlyStoppingCallback"; "TrainerCallback";
   "torch"; "pd"; "os"; "time"; "sp"; "copy"; "logging"; "json"; "np";
   "sample_decode"; "describe"; "describe_lens"; "logger";
   "evalLogsCallback"; "run_trials"; "pick_gpu";
   "base_data_path"; "base_model_path"; "sample_chunked_path";
   "sample_chunked_dsep_path"; "normal_model_path"; "dsep_model_path";
   "wandb_test_path"; "data_paths"; "model_paths"; "pos_embd_strats";
   "run_names"; "i"].

(** Set by the interpreter in every module. *)
Definition module_attributes : list string :=
  ["__name__"; "__doc__"; "__package__"; "__loader__"; "__spec__";
   "__file__"; "__cached__"; "__builtins__"].

(** The functions and constants of the builtins module. *)
Definition builtin_functions : list string :=
  ["abs"; "aiter"; "all"; "anext"; "any"; "ascii"; "bin"; "bool";
   "breakpoint"; "bytearray"; "bytes"; "callable"; "chr"; "classmethod";
   "compile"; "complex"; "delattr"; "dict"; "dir"; "divmod"; "enumerate";
   "eval"; "exec"; "filter"; "float"; "format"; "frozenset"; "getattr";
   "globals"; "hasattr"; "hash"; "help"; "hex"; "id"; "input"; "int";
   "isinstance"; "issubclass"; "iter"; "len"; "list"; "locals"; "map";
   "max"; "memoryview"; "min"; "next"; "object"; "oct"; "open"; "ord";
   "pow"; "print"; "property"; "range"; "repr"; "reversed"; "round";
   "set"; "setattr"; "slice"; "sorted"; "staticmethod"; "str"; "sum";
   "super"; "tuple"; "type"; "vars"; "zip"; "__import__";
   "True"; "False"; "None"; "NotImplemented"; "Ellipsis"; "__debug__";
   "copyright"; "credits"; "license"; "exit"; "quit"].

(** Its exception and warning classes. *)
Definition builtin_exceptions : list string :=
  ["BaseException"; "BaseExceptionGroup"; "GeneratorExit";
   "KeyboardInterrupt"; "SystemExit"; "Exception"; "ArithmeticError";
   "FloatingPointError"; "OverflowError"; "ZeroDivisionError";
   "AssertionError"; "AttributeError"; "BufferError"; "EOFError";
   "ExceptionGroup"; "ImportError"; "ModuleNotFoundError"; "LookupError";
   "IndexError"; "KeyError"; "MemoryError"; "NameError";
   "UnboundLocalError"; "OSError"; "BlockingIOError"; "ChildProcessError";
   "ConnectionError"; "BrokenPipeError"; "ConnectionAbortedError";
   "ConnectionRefusedError"; "ConnectionResetError"; "FileExistsError";
   "FileNotFoundError"; "InterruptedError"; "IsADirectoryError";
   "NotADirectoryError"; "PermissionError"; "ProcessLookupError";
   "TimeoutError"; "ReferenceError"; "RuntimeError";
   "NotImplementedError"; "RecursionError"; "StopAsyncIteration";
   "StopIteration"; "SyntaxError"; "IndentationError"; "TabError";
   "SystemError"; "TypeError"; "ValueError"; "UnicodeError";
   "UnicodeDecodeError"; "UnicodeEncodeError"; "UnicodeTranslateError";
   "EnvironmentError"; "IOError"; "Warning"; "BytesWarning";
   "DeprecationWarning"; "EncodingWarning"; "FutureWarning";
   "ImportWarning"; "PendingDeprecationWarning"; "ResourceWarning";
   "RuntimeWarning"; "SyntaxWarning"; "UnicodeWarning"; "UserWarning"].

Section callback.
Context {float : Type}.

(** An object a wildcard import binds, as far as a call [name.attr(x)]
    can tell: its callable attributes. *)
Definition gobj : Type := gmap string (pyval float → outcome (pyval float)).

Inductive binding : Type :=
| Known                      (* bound by a statement of this module *)
| Star (g : gobj)            (* bound by a wildcard import *)
| Builtin.

Definition known (names : list string) : gmap string binding :=
  gset_to_gmap Known (list_to_set names).

(** The globals once the top-level statements have run, in terms of what
    [from ...configuration_roberta import *] ([cfg], line 5) and
    [from ...modeling_roberta import *] ([mdl], line 6) bind.  The union
    prefers its left operand, as the later statement wins. *)
Definition module_globals (cfg mdl : gmap string gobj) : gmap string binding :=
  known bound_after_star ∪ (Star <$> mdl) ∪ (Star <$> cfg)
    ∪ known bound_before_star ∪ known module_attributes.

Definition resolve (cfg mdl : gmap string gobj) (name : string) : option binding :=
  match module_globals cfg mdl !! name with
  | Some b => Some b
  | None =>
      if decide (name ∈ (builtin_functions ++ builtin_exceptions)%list)
      then Some Builtin else None
  end.

(** Evaluating [name.attr] down to something to call.  An object of this
    module or a builtin is never asked for an attribute it lacks in the
    bodies below, so that case is read only for names from a wildcard
    import. *)
Definition load_attr (cfg mdl : gmap string gobj) (name attr : string)
  : outcome (pyval float → outcome (pyval float)) :=
  match resolve cfg mdl name with
  | None => Raise (NameError name)
  | Some (Star g) =>
      match g !! attr with
      | Some f => Ret f
      | None => Raise (AttributeError attr)
      end
  | Some _ => Raise (AttributeError attr)
  end.

(** *** The Trainer's objects, as far as the callback reads them *)

Record TrainerState : Type := {
  trial_params : option loc;               (* a dict, or None *)
  best_metric : pyval float;
  best_model_checkpoint : option string;   (* a str, or None *)
}.

Record TrainerControl : Type := { should_save : bool }.

Record TrainingArguments : Type := { n_gpu : Z }.

(** Text rendering done by the interpreter and by the json module:
    [str(x)] of a float and [json.dumps(obj)]. *)
Variable float_str : float → string.
Variable json_dumps : option (gmap string (pyval float)) → string.

(** [json.dumps(x)] for [x] a dict object or None. *)
Definition json_dumps_of (x : option loc) : py float string := λ w,
  match x with
  | None => (Ret (json_dumps None), w)
  | Some l =>
      match heap w !! l with
      | Some (ODict d) => (Ret (json_dumps (Some d)), w)
      | _ => (Raise TypeError, w)
      end
  end.

(** *** [evalLogsCallback] *)

(** [__init__]: [self.metrics = {}] *)
Definition init : py float loc :=
  m ← alloc (ODict ∅);
  alloc (OCallback m).

Definition save_metrics (self : loc) (split : string) (metrics : loc)
    (output_dir : string) : py float unit :=
  let path := os_path_join output_dir (split +:+ "_results.json") in
  open_w path;;
  json_dump metrics path.

Definition on_evaluate (cfg mdl : gmap string gobj) (self : loc)
    (state : TrainerState) (control : TrainerControl)
    (kwargs : gmap string loc) : py float unit :=
  metrics ← lift (match kwargs !! "metrics" with
                  | Some l => Ret l
                  | None => Raise (KeyError "metrics")
                  end);
  (if should_save control then
     exp ← lift (load_attr cfg mdl "math" "exp");
     loss ← dict_getitem metrics "eval_loss";
     perplexity ← lift (exp loss);
     dict_setitem metrics "perplexity" perplexity;;
     params ← json_dumps_of (trial_params state);
     dict_setitem metrics "trial_params" (VStr params)
   else mret tt);;
  copy ← dict_copy metrics;
  set_metrics self copy;;
  text ← json_dumps_of (Some metrics);
  log_info text.

(** [state.best_model_checkpoint.split('/checkpoint')[0]] *)
Definition checkpoint_dir (state : TrainerState) : outcome (string * string) :=
  match best_model_checkpoint state with
  | Some ckpt => Ret (ckpt, before_first "/checkpoint" ckpt)
  | None => Raise (AttributeError "split")
  end.

(** [print(self.metrics, output_dir)] *)
Definition print_metrics (m : loc) (output_dir : string) : py float unit := λ w,
  match heap w !! m with
  | Some (ODict d) => print [PDict d; PStr output_dir] w
  | _ => print [PStr output_dir] w
  end.

Definition on_save (self : loc) (state : TrainerState)
    (control : TrainerControl) (kwargs : gmap string loc) : py float unit :=
  '(_, output_dir) ← lift (checkpoint_dir state);
  m ← get_metrics self;
  print_metrics m output_dir;;
  m ← get_metrics self;
  epoch ← dict_getitem m "epoch";
  m ← get_metrics self;
  save_metrics self ("eval_" +:+ py_str float_str epoch) m output_dir.

Definition on_train_end (cfg mdl : gmap string gobj) (self : loc)
    (args : TrainingArguments) (state : TrainerState)
    (control : TrainerControl) (kwargs : gmap string loc) : py float unit :=
  '(ckpt, output_dir) ← lift (checkpoint_dir state);
  params ← lift (match trial_params state with
                 | Some l => Ret l
                 | None => Raise (AttributeError "copy")
                 end);
  metrics ← dict_copy params;
  dict_setitem metrics "number_of_gpus" (VInt (n_gpu args));;
  dict_setitem metrics "best_loss" (best_metric state);;
  exp ← lift (load_attr cfg mdl "math" "exp");
  best_perplexity ← lift (exp (best_metric state));
  dict_setitem metrics "best_perplexity" best_perplexity;;
  dict_setitem metrics "best_model_checkpoint" (VStr ckpt);;
  set_metrics self metrics;;
  m ← get_metrics self;
  save_metrics self "final" m output_dir.

(** *** [compute_objective], local to [run_trials] *)

Definition compute_objective (metrics : loc) : py float (pyval float) :=
  metrics' ← deepcopy metrics;
  loss ← dict_pop metrics' "eval_loss" VNone;
  mret loss.

End callback.

(** *** [model_init], local to [run_trials]: the two flags it derives from
    [pos_embd_strat] before it expands the position embeddings *)

(** [False if pos_embd_strat == "no_load" else True] *)
Definition use_trained (pos_embd_strat : string) : bool :=
  if String.eqb pos_embd_strat "no_load" then false else true.

(** [True if pos_embd_strat == "load_repeat" else False] *)
Definition repeat_flag (pos_embd_strat : string) : bool :=
  if String.eqb pos_embd_strat "load_repeat" then true else false.

End trials_eval_callback.

(** ** Vocabulary of the statements *)

(** The world after device [j] was taken: one line printed, one variable
    of the environment set. *)
Definition claim {float : Type} (j : nat) (w : world float) : world float :=
  World (heap w) (<["CUDA_VISIBLE_DEVICES":=pretty j]> (environ w))
        (files w) (can_write w)
        (stdout w ++ [[PStr ("using GPU " +:+ pretty j)]]) (logged w).

(** The line feed, and text that has none. *)
Definition lf : ascii := "010"%char.

Definition one_line (s : string) : Prop := lf ∉ list_ascii_of_string s.

Definition all_ascii (s : string) : Prop :=
  forallb is_ascii (list_ascii_of_string s) = true.

Definition no_space (s : string) : Prop :=
  forallb (λ a, negb (is_space a)) (list_ascii_of_string s) = true.

Definition all_space (s : string) : Prop :=
  forallb is_space (list_ascii_of_string s) = true.


(** Lines, each closed by a line feed, one after the other. *)
Fixpoint unlines (ls : list string) : string :=
  match ls with
  | [] => EmptyString
  | l :: ls' => l +:+ String lf (unlines ls')
  end.


(** [sep] stands in [s] at offset [i]. *)
Definition occurs_at (sep s : string) (i : nat) : Prop :=
  ∃ before after, s = before +:+ after ∧ String.length before = i
                  ∧ String.prefix sep after = true.


(** ** Inputs to run the definitions on *)

Definition nl : string := String "010" EmptyString.

(** An IEEE double by its sign, integer significand and binary exponent;
    enough to name the floats of the examples. *)
Record f64 : Type := F64 { negative : bool; significand : Z; exponent : Z }.

Definition f64_zero : f64 := F64 false 0 0.
Definition f64_one : f64 := F64 false 1 0.
Definition f64_half : f64 := F64 false 1 (-1).

(** The decimal expansion of [significand * 2 ^ exponent], which is what
    [str] gives for the floats used below (odd significand, few digits). *)
Definition f64_str (f : f64) : string :=
  let sign := if negative f then "-" else EmptyString in
  if 0 <=? exponent f
  then sign +:+ pretty (significand f * 2 ^ exponent f) +:+ ".0"
  else
    let k := - exponent f in
    let n := significand f * 5 ^ k in
    let fraction := pretty (n `mod` 10 ^ k) in
    sign +:+ pretty (n `div` 10 ^ k) +:+ "."
      +:+ String.concat EmptyString (replicate (Z.to_nat k - String.length fraction) "0")
      +:+ fraction.

Definition json_value (v : pyval f64) : string :=
  match v with
  | VNone => "null"
  | VBool true => "true"
  | VBool false => "false"
  | VInt z => pretty z
  | VFloat f => f64_str f
  | VStr s => String "034"%char s +:+ String "034"%char EmptyString
  end.

(** [json.dumps] for the examples: keys and strings that need no escape,
    items in key order. *)
Definition json_text (x : option (gmap string (pyval f64))) : string :=
  match x with
  | None => "null"
  | Some d =>
      "{" +:+ String.concat ", "
                (map (λ kv, String "034"%char (fst kv) +:+ String "034"%char EmptyString
                            +:+ ": " +:+ json_value (snd kv))
                     (map_to_list d))
          +:+ "}"
  end.

(** A world with nothing in it, every path writable. *)
Definition w0 : world f64 := World ∅ ∅ ∅ (λ _, true) [] [].

(** The metrics of an evaluation at the end of epoch 1. *)
Definition metrics_epoch1 : gmap string (pyval f64) :=
  {[ "epoch" := VFloat f64_one; "eval_loss" := VFloat f64_half ]}.

(** The parameters of a trial, as [optuna_hp_space] names them. *)
Definition params_run3 : gmap string (pyval f64) :=
  {[ "attention_probs_dropout_prob" := VFloat (F64 false 1 (-2)) ]}.

(** A world with the metrics at address 1, at address 2 a callback whose
    [metrics] is that dict, and the trial's parameters at address 3. *)
Definition w_callback : world f64 :=
  World {[ 1%positive := ODict metrics_epoch1;
           2%positive := OCallback 1%positive;
           3%positive := ODict params_run3 ]}
        ∅ ∅ (λ _, true) [] [].

(** The same with an evaluation loss of exactly zero. *)
Definition w_zero_loss : world f64 :=
  World {[ 1%positive := ODict {[ "epoch" := VFloat f64_one;
                                  "eval_loss" := VFloat f64_zero ]};
           2%positive := OCallback 1%positive;
           3%positive := ODict params_run3 ]}
        ∅ ∅ (λ _, true) [] [].

(** The Trainer's state in run 3 of a search, after a checkpoint at step
    12, with a best loss of zero. *)
Definition state_run3 : trials_eval_callback.TrainerState :=
  {| trials_eval_callback.trial_params := Some 3%positive;
     trials_eval_callback.best_metric := VFloat f64_zero;
     trials_eval_callback.best_model_checkpoint :=
       Some "/models/run-3/checkpoint-12" |}.

Definition one_gpu : trials_eval_callback.TrainingArguments :=
  {| trials_eval_callback.n_gpu := 1 |}.

(** [math.exp] where its value is a float exactly: at zero.  It is all
    the examples ask of it; other numbers are out of its range here. *)
Definition exp_at_zero (v : pyval f64) : outcome (pyval f64) :=
  match v with
  | VFloat f => if significand f =? 0 then Ret (VFloat f64_one)
                else Raise OverflowError
  | VInt z => if z =? 0 then Ret (VFloat f64_one) else Raise OverflowError
  | VBool _ | VNone | VStr _ => Raise TypeError
  end.

(** What [from ...modeling_roberta import *] binds when that module has
    imported math at its top and declares no [__all__]: the name [math],
    among others. *)
Definition mdl_with_math : gmap string (@trials_eval_callback.gobj f64) :=
  {[ "math" := {[ "exp" := exp_at_zero ]} ]}.

Definition saving : trials_eval_callback.TrainerControl :=
  {| trials_eval_callback.should_save := true |}.

(** nvidia-smi with two devices, the second with 48676 MiB free. *)
Definition smi_second_free : string :=
  "memory.free [MiB]" +:+ nl +:+ "11019 MiB" +:+ nl +:+ "48676 MiB" +:+ nl.

(** nvidia-smi with two devices, neither with 48676 MiB free. *)
Definition smi_none_free : string :=
  "memory.free [MiB]" +:+ nl +:+ "11019 MiB" +:+ nl +:+ "32510 MiB" +:+ nl.

(** * Theorems *)

(** ** The state monad *)

Section monad.
Context {float : Type}.

Lemma bind_ret {A B} (m : py float A) (f : A → py float B) w a w' :
  m w = (Ret a, w') → (m ≫= f) w = f a w'.
Proof. intros E. unfold mbind, py_bind. by rewrite E. Qed.

Lemma bind_raise {A B} (m : py float A) (f : A → py float B) w e w' :
  m w = (Raise e, w') → (m ≫= f) w = (Raise e, w').
Proof. intros E. unfold mbind, py_bind. by rewrite E. Qed.

Lemma lift_bind {A B} (o : outcome A) (f : A → py float B) w :
  (lift o ≫= f) w = match o with Ret a => f a w | Raise e => (Raise e, w) end.
Proof. by destruct o. Qed.

End monad.

(** ** [pick_gpu] *)

Section pick_gpu_facts.
Context {float : Type}.
Import control_trials.

Lemma pick_loop_spec (values : list Z) (j : nat) (w : world float) :
  (∃ k : nat, values !! k = Some 48676
      ∧ (∀ i : nat, (i < k)%nat → values !! i ≠ Some 48676)
      ∧ pick_loop j values w = (Ret tt, claim (j + k) w))
  ∨ ((48676 ∉ values) ∧ pick_loop j values w = (Ret tt, w)).
Proof.
  revert j. induction values as [|v rest IH]; intros j; simpl.
  - right. split; [apply not_elem_of_nil | done].
  - destruct (decide (v = 48676)) as [->|Hv].
    + left. exists 0%nat. split; [done|]. split; [lia|].
      by rewrite Nat.add_0_r.
    + destruct (IH (S j)) as [(k & Hk & Hmin & Hrun)|[Hnot Hrun]].
      * left. exists (S k). split; [done|]. split.
        -- intros [|i] Hi; simpl; [congruence|]. apply Hmin. lia.
        -- rewrite Hrun. do 2 f_equal. lia.
      * right. split; [|done]. rewrite elem_of_cons.
        intros [Heq|Hin]; [by apply Hv|by apply Hnot].
Qed.

(** C6, as the code has it: [pick_gpu] fails only where the query or the
    reading of its output fails, and then before anything is claimed;
    otherwise it returns normally, having claimed the first device whose
    free memory reads exactly 48676 (it prints one line and sets
    CUDA_VISIBLE_DEVICES to the index), or, when no device reads 48676,
    having claimed nothing and changed nothing. *)
Theorem pick_gpu_first_match_or_nothing (smi : outcome string) (w : world float) :
  (∃ e, pick_gpu smi w = (Raise e, w)
        ∧ (smi = Raise e
           ∨ ∃ raw, smi = Ret raw ∧ memory_free_values raw = Raise e))
  ∨ (∃ raw values, smi = Ret raw ∧ memory_free_values raw = Ret values
        ∧ ((∃ j : nat, values !! j = Some 48676
              ∧ (∀ i : nat, (i < j)%nat → values !! i ≠ Some 48676)
              ∧ pick_gpu smi w = (Ret tt, claim j w))
           ∨ ((48676 ∉ values) ∧ pick_gpu smi w = (Ret tt, w)))).
Proof.
  unfold pick_gpu. destruct smi as [raw|e]; rewrite lift_bind.
  - destruct (memory_free_values raw) as [values|e] eqn:Hvalues;
      rewrite lift_bind.
    + right. exists raw, values. split; [done|]. split; [done|].
      apply (pick_loop_spec values 0 w).
    + left. exists e. split; [done|]. right. by exists raw.
  - left. exists e. split; [done|]. by left.
Qed.

End pick_gpu_facts.

(** C6, refuted as stated: with two devices, neither reading 48676,
    [pick_gpu] returns normally; nothing was raised, nothing printed, and
    CUDA_VISIBLE_DEVICES is still unset. *)
Lemma pick_gpu_returns_without_a_claim :
  control_trials.memory_free_values smi_none_free = Ret [11019; 32510]
  ∧ control_trials.pick_gpu (Ret smi_none_free) w0 = (Ret tt, w0)
  ∧ environ w0 !! "CUDA_VISIBLE_DEVICES" = None.
Proof. split; [|split]; by vm_compute. Qed.

(** The theorem read on the output with the second device free: the
    call does not fail, and device 1 is the one taken. *)
Lemma pick_gpu_first_match_or_nothing_witness :
  ∃ j : nat,
    control_trials.memory_free_values smi_second_free = Ret [11019; 48676]
    ∧ [11019; 48676] !! j = Some 48676
    ∧ control_trials.pick_gpu (Ret smi_second_free) w0 = (Ret tt, claim j w0).
Proof.
  assert (Hvalues : control_trials.memory_free_values smi_second_free
                    = Ret [11019; 48676]) by (by vm_compute).
  destruct (pick_gpu_first_match_or_nothing (Ret smi_second_free) w0)
    as [(e & _ & [Hsmi|(raw & Hsmi & Hfail)])
       |(raw & values & Hsmi & Hok & [(j & Hj & _ & Hrun)|[Hnone _]])].
  - discriminate Hsmi.
  - injection Hsmi as <-. rewrite Hvalues in Hfail. discriminate Hfail.
  - injection Hsmi as <-. rewrite Hvalues in Hok. injection Hok as <-.
    by exists j.
  - injection Hsmi as <-. rewrite Hvalues in Hok. injection Hok as <-.
    exfalso. apply Hnone. set_solver.
Defined.

(** With the second device reading 48676, it is device 1 that is taken. *)
Example pick_gpu_takes_second :
  control_trials.pick_gpu (Ret smi_second_free) w0 = (Ret tt, claim 1 w0).
Proof. by vm_compute. Qed.

(** A line without a number makes the whole call fail. *)
Example pick_gpu_unreadable_line :
  control_trials.pick_gpu
    (Ret ("memory.free [MiB]" +:+ nl +:+ "[N/A]" +:+ nl)) w0
  = (Raise ValueError, w0).
Proof. by vm_compute. Qed.

(** ** [MyPrunerCallback.on_evaluate] *)

Section pruner_callback.
Context {float T : Type} `{!Trial float T}.
Variable float_str : float → string.
Import control_trials.

(** The callback decides nothing itself: once the loss is read and
    reported, it raises TrialPruned exactly when [should_prune] says so,
    and keeps the state the library left. *)
Lemma on_evaluate_follows_should_prune epoch kwargs (t t1 t2 : T)
    (w w1 : world float) loss (prune : bool) :
  current_eval_loss kwargs w = (Ret loss, w1) →
  report loss epoch t = (Ret tt, t1) →
  should_prune t1 = (Ret prune, t2) →
  ∃ w2, on_evaluate float_str epoch kwargs t w
        = (if prune then Raise TrialPruned else Ret tt, t2, w2)
    ∧ heap w2 = heap w1 ∧ files w2 = files w1.
Proof.
  intros Hloss Hreport Hprune. unfold on_evaluate.
  rewrite Hloss, Hreport, Hprune. destruct prune; by eexists.
Qed.

(** Whatever [report] raises comes out of the callback as it is, before
    [should_prune] is asked. *)
Lemma on_evaluate_report_raises epoch kwargs (t t1 : T)
    (w w1 : world float) loss e :
  current_eval_loss kwargs w = (Ret loss, w1) →
  report loss epoch t = (Raise e, t1) →
  on_evaluate float_str epoch kwargs t w = (Raise e, t1, w1).
Proof.
  intros Hloss Hreport. unfold on_evaluate. by rewrite Hloss, Hreport.
Qed.

End pruner_callback.

(** ** [evalLogsCallback.save_metrics] and [on_save] *)

Section ledger.
Context {float : Type}.
Variable float_str : float → string.
Import trials_eval_callback.

Lemma set_files_twice (f g : gmap string (content float)) (w : world float) :
  set_files f (set_files g w) = set_files f w.
Proof. done. Qed.

(** What [save_metrics] does, case by case. *)
Lemma save_metrics_run self split metrics dir (w : world float) :
  let path := os_path_join dir (split +:+ "_results.json") in
  save_metrics self split metrics dir w =
    if can_write w path then
      match heap w !! metrics with
      | Some (ODict d) =>
          (Ret tt, set_files (<[path:=JsonDoc d]> (files w)) w)
      | _ => (Raise TypeError, set_files (<[path:=Empty]> (files w)) w)
      end
    else (Raise OSError, w).
Proof.
  intros path. unfold save_metrics. fold path.
  unfold mbind, py_bind, open_w, json_dump.
  destruct (can_write w path); [|done]. simpl.
  destruct (heap w !! metrics) as [[d|m]|]; try done.
  by rewrite insert_insert_eq.
Qed.

Lemma save_metrics_again self split metrics dir (w : world float) :
  save_metrics self split metrics dir
    (snd (save_metrics self split metrics dir w))
  = save_metrics self split metrics dir w.
Proof.
  rewrite !save_metrics_run.
  destruct (can_write w _) eqn:Hcw; simpl; [|by rewrite Hcw].
  destruct (heap w !! metrics) as [[d|m]|] eqn:Hm; simpl;
    rewrite Hcw, ?Hm; simpl; by rewrite set_files_twice, insert_insert_eq.
Qed.

Lemma print_metrics_ret m dir (w : world float) :
  print_metrics m dir w = (Ret tt, snd (print_metrics m dir w)).
Proof. unfold print_metrics. by destruct (heap w !! m) as [[?|?]|]. Qed.

Lemma print_metrics_frame m dir (w : world float) :
  let w1 := snd (print_metrics m dir w) in
  heap w1 = heap w ∧ files w1 = files w ∧ can_write w1 = can_write w.
Proof. unfold print_metrics. by destruct (heap w !! m) as [[?|?]|]. Qed.

(** What [on_save] does, case by case. *)
Lemma on_save_run self state control kwargs (w : world float) :
  on_save float_str self state control kwargs w =
    match checkpoint_dir state with
    | Raise e => (Raise e, w)
    | Ret (_, dir) =>
        match heap w !! self with
        | Some (OCallback m) =>
            let w1 := snd (print_metrics m dir w) in
            match heap w !! m with
            | Some (ODict d) =>
                match d !! "epoch" with
                | Some epoch =>
                    save_metrics self ("eval_" +:+ py_str float_str epoch)
                                 m dir w1
                | None => (Raise (KeyError "epoch"), w1)
                end
            | _ => (Raise TypeError, w1)
            end
        | _ => (Raise (AttributeError "metrics"), w)
        end
    end.
Proof.
  unfold on_save. rewrite lift_bind.
  destruct (checkpoint_dir state) as [[ckpt dir]|e]; [|done].
  destruct (heap w !! self) as [o|] eqn:Hself.
  2:{ apply bind_raise. unfold get_metrics. by rewrite Hself. }
  destruct o as [d|m].
  { apply bind_raise. unfold get_metrics. by rewrite Hself. }
  rewrite (bind_ret _ _ w m w) by (unfold get_metrics; by rewrite Hself).
  rewrite (bind_ret _ _ _ _ _ (print_metrics_ret m dir w)).
  destruct (print_metrics_frame m dir w) as (Hh & _ & _).
  set (w1 := snd (print_metrics m dir w)) in *.
  assert (Hget : get_metrics self w1 = (Ret m, w1)).
  { unfold get_metrics. by rewrite Hh, Hself. }
  rewrite (bind_ret _ _ _ _ _ Hget).
  destruct (heap w !! m) as [o|] eqn:Hm.
  2:{ apply bind_raise. unfold dict_getitem. by rewrite Hh, Hm. }
  destruct o as [d|m'].
  2:{ apply bind_raise. unfold dict_getitem. by rewrite Hh, Hm. }
  destruct (d !! "epoch") as [epoch|] eqn:Hepoch.
  2:{ apply bind_raise. unfold dict_getitem. by rewrite Hh, Hm, Hepoch. }
  rewrite (bind_ret _ _ w1 epoch w1)
    by (unfold dict_getitem; by rewrite Hh, Hm, Hepoch).
  by rewrite (bind_ret _ _ _ _ _ Hget).
Qed.

(** [save_metrics] read through the parts of the world it depends on. *)
Lemma save_metrics_view self split metrics dir (w : world float) :
  let path := os_path_join dir (split +:+ "_results.json") in
  let r := save_metrics self split metrics dir w in
  heap (snd r) = heap w ∧ can_write (snd r) = can_write w
  ∧ fst r = (if can_write w path then
               match heap w !! metrics with
               | Some (ODict _) => Ret tt
               | _ => Raise TypeError
               end
             else Raise OSError)
  ∧ files (snd r) = (if can_write w path then
                       match heap w !! metrics with
                       | Some (ODict d) => <[path:=JsonDoc d]> (files w)
                       | _ => <[path:=Empty]> (files w)
                       end
                     else files w).
Proof.
  intros path r. subst r. rewrite save_metrics_run. fold path.
  destruct (can_write w path); [|done].
  by destruct (heap w !! metrics) as [[?|?]|].
Qed.

(** The outcome of [on_save], and the files it leaves, as a function of
    the heap, of what can be written and of the files before. *)
Lemma on_save_view self state control kwargs (w : world float) :
  let r := on_save float_str self state control kwargs w in
  heap (snd r) = heap w ∧ can_write (snd r) = can_write w
  ∧ ∀ v : world float, heap v = heap w → can_write v = can_write w →
      let r' := on_save float_str self state control kwargs v in
      fst r' = fst r
      ∧ (files v = files (snd r) → files (snd r') = files (snd r)).
Proof.
  simpl. rewrite on_save_run.
  assert (Hv : ∀ v : world float, heap v = heap w →
    on_save float_str self state control kwargs v =
      match checkpoint_dir state with
      | Raise e => (Raise e, v)
      | Ret (_, dir) =>
          match heap w !! self with
          | Some (OCallback m) =>
              let v1 := snd (print_metrics m dir v) in
              match heap w !! m with
              | Some (ODict d) =>
                  match d !! "epoch" with
                  | Some epoch =>
                      save_metrics self ("eval_" +:+ py_str float_str epoch)
                                   m dir v1
                  | None => (Raise (KeyError "epoch"), v1)
                  end
              | _ => (Raise TypeError, v1)
              end
          | _ => (Raise (AttributeError "metrics"), v)
          end
      end).
  { intros v Hh. by rewrite on_save_run, Hh. }
  destruct (checkpoint_dir state) as [[ckpt dir]|e].
  2:{ split; [done|]. split; [done|]. intros v Hh _. by rewrite (Hv v Hh). }
  destruct (heap w !! self) as [[d|m]|] eqn:Hself.
  1,3: split; [done|]; split; [done|]; intros v Hh _; by rewrite (Hv v Hh).
  destruct (print_metrics_frame m dir w) as (Hph & Hpf & Hpc).
  assert (Hpv : ∀ v : world float, files (snd (print_metrics m dir v)) = files v).
  { intros v. apply (print_metrics_frame m dir v). }
  destruct (heap w !! m) as [[d|m']|] eqn:Hm.
  2,3: split; [done|]; split; [done|]; intros v Hh _; rewrite (Hv v Hh);
       simpl; split; [done|]; intros Hf; by rewrite Hpv, Hf.
  destruct (d !! "epoch") as [epoch|] eqn:Hepoch.
  2:{ split; [done|]; split; [done|]; intros v Hh _; rewrite (Hv v Hh).
      simpl; split; [done|]; intros Hf; by rewrite Hpv, Hf. }
  set (split := "eval_" +:+ py_str float_str epoch) in *.
  destruct (save_metrics_view self split m dir (snd (print_metrics m dir w)))
    as (Hsh & Hsc & Hso & Hsf).
  cbv zeta in *.
  split; [by rewrite Hsh|]. split; [by rewrite Hsc|].
  intros v Hh Hc. rewrite (Hv v Hh).
  destruct (print_metrics_frame m dir v) as (Hph' & Hpf' & Hpc').
  destruct (save_metrics_view self split m dir (snd (print_metrics m dir v)))
    as (_ & _ & Hso' & Hsf').
  rewrite Hso, Hso', Hsf', Hph', Hpc', Hph, Hpc, Hh, Hc, Hpf'.
  split; [done|]. intros ->. rewrite Hsf, Hph, Hpc.
  destruct (can_write w _); [|done].
  rewrite Hm. by rewrite insert_insert_eq.
Qed.

(** Saving again after [on_save] ends the same way and leaves the same
    files and the same heap; only the printed line is there twice. *)
Lemma on_save_again self state control kwargs (w : world float) :
  let once := on_save float_str self state control kwargs w in
  let twice := on_save float_str self state control kwargs (snd once) in
  fst twice = fst once ∧ files (snd twice) = files (snd once)
  ∧ heap (snd twice) = heap (snd once).
Proof.
  intros once twice. subst once twice.
  destruct (on_save_view self state control kwargs w) as (Hh & Hc & Hagain).
  destruct (Hagain _ Hh Hc) as (Hout & Hfiles).
  split; [done|]. split; [by apply Hfiles|].
  by destruct (on_save_view self state control kwargs
                 (snd (on_save float_str self state control kwargs w)))
    as (Hh' & _).
Qed.

(** C8: recording twice is recording once.  A second [save_metrics] with
    the same arguments returns the same outcome and leaves the very same
    world; a second [on_save] ends like the first and leaves the same
    files; and a [save_metrics] that succeeds leaves, under its path, the
    one document of the dict it was given, every other file as it was. *)
Theorem save_twice_is_save_once :
  (∀ self split metrics dir (w : world float),
     save_metrics self split metrics dir
       (snd (save_metrics self split metrics dir w))
     = save_metrics self split metrics dir w)
  ∧ (∀ self state control kwargs (w : world float),
       let once := on_save float_str self state control kwargs w in
       let twice := on_save float_str self state control kwargs (snd once) in
       fst twice = fst once ∧ files (snd twice) = files (snd once))
  ∧ (∀ self split metrics dir (w : world float),
       fst (save_metrics self split metrics dir w) = Ret tt →
       ∃ d, heap w !! metrics = Some (ODict d)
            ∧ files (snd (save_metrics self split metrics dir w))
              = <[os_path_join dir (split +:+ "_results.json"):=JsonDoc d]>
                  (files w)).
Proof.
  split; [|split].
  - apply save_metrics_again.
  - intros self state control kwargs w once twice.
    destruct (on_save_again self state control kwargs w) as (Ho & Hf & _).
    by split.
  - intros self split metrics dir w.
    rewrite save_metrics_run.
    destruct (can_write w _); [|done].
    destruct (heap w !! metrics) as [[d|m]|]; try done.
    intros _. by exists d.
Qed.

End ledger.

(** The callback of [w_callback] saves its metrics twice: one file,
    [/models/run-3/eval_1.0_results.json], holding the metrics. *)
Lemma save_twice_is_save_once_witness :
  let once := trials_eval_callback.on_save f64_str 2%positive state_run3
                saving ∅ w_callback in
  let twice := trials_eval_callback.on_save f64_str 2%positive state_run3
                 saving ∅ (snd once) in
  fst once = Ret tt
  ∧ files (snd once) = {[ "/models/run-3/eval_1.0_results.json"
                           := JsonDoc metrics_epoch1 ]}
  ∧ fst twice = fst once ∧ files (snd twice) = files (snd once)
  ∧ ∃ d, heap w_callback !! 1%positive = Some (ODict d)
         ∧ files (snd (trials_eval_callback.save_metrics 2%positive "final"
                         1%positive "/models/run-3" w_callback))
           = <[os_path_join "/models/run-3" ("final" +:+ "_results.json")
               :=JsonDoc d]> (files w_callback).
Proof.
  destruct (save_twice_is_save_once f64_str) as (_ & Hsave & Hone).
  split; [by vm_compute|]. split; [by vm_compute|].
  split; [apply Hsave|]. split; [apply Hsave|].
  apply Hone. by vm_compute.
Defined.

(** ** [compute_objective] *)

Section objective.
Context {float : Type}.
Import trials_eval_callback.

Lemma alloc_run (o : obj float) (w : world float) :
  let l := fresh (dom (heap w)) in
  alloc o w = (Ret l, set_heap (<[l:=o]> (heap w)) w) ∧ heap w !! l = None.
Proof.
  intros l. split; [done|].
  apply not_elem_of_dom. apply is_fresh.
Qed.

(** C10: given a dict, [compute_objective] returns what the dict holds
    under "eval_loss", None if it holds nothing there, and every object
    that existed before the call, the caller's dict among them, is as it
    was: the key is popped from a copy at a new address.  Environment,
    files and output are not touched either. *)
Theorem compute_objective_leaves_metrics (metrics : loc)
    (d : gmap string (pyval float)) (w : world float) :
  heap w !! metrics = Some (ODict d) →
  ∃ w', compute_objective metrics w
        = (Ret (default VNone (d !! "eval_loss")), w')
    ∧ heap w' !! metrics = Some (ODict d)
    ∧ (∀ l, is_Some (heap w !! l) → heap w' !! l = heap w !! l)
    ∧ environ w' = environ w ∧ files w' = files w
    ∧ stdout w' = stdout w ∧ logged w' = logged w.
Proof.
  intros Hm. unfold compute_objective.
  destruct (alloc_run (ODict d) w) as [Halloc Hfresh].
  set (l := fresh (dom (heap w))) in *.
  assert (Hcopy : deepcopy metrics w
                  = (Ret l, set_heap (<[l:=ODict d]> (heap w)) w)).
  { unfold deepcopy. by rewrite Hm. }
  rewrite (bind_ret _ _ _ _ _ Hcopy).
  assert (Hold : ∀ l', is_Some (heap w !! l') → l ≠ l').
  { intros l' [o Ho] <-. congruence. }
  unfold mbind, py_bind, dict_pop. unfold set_heap at 1 2; simpl.
  rewrite lookup_insert_eq.
  destruct (d !! "eval_loss") as [v|]; simpl.
  - eexists. split; [done|]. unfold set_heap; simpl.
    rewrite insert_insert_eq.
    split; [rewrite lookup_insert_ne; [done|apply Hold; by rewrite Hm]|].
    split; [|done]. intros l' Hl'. by rewrite lookup_insert_ne; [|apply Hold].
  - eexists. split; [done|]. unfold set_heap; simpl.
    split; [rewrite lookup_insert_ne; [done|apply Hold; by rewrite Hm]|].
    split; [|done]. intros l' Hl'. by rewrite lookup_insert_ne; [|apply Hold].
Qed.

End objective.

(** On [w_callback], the objective of the dict at address 1 is its
    eval_loss, 0.5, and the dict still holds it afterwards. *)
Lemma compute_objective_leaves_metrics_witness :
  heap w_callback !! 1%positive = Some (ODict metrics_epoch1)
  ∧ ∃ w', trials_eval_callback.compute_objective 1%positive w_callback
          = (Ret (VFloat f64_half), w')
      ∧ heap w' !! 1%positive = Some (ODict metrics_epoch1).
Proof.
  assert (H : heap w_callback !! 1%positive = Some (ODict metrics_epoch1))
    by (by vm_compute).
  split; [exact H|].
  destruct (compute_objective_leaves_metrics 1%positive metrics_epoch1
              w_callback H) as (w' & Hrun & Hsame & _).
  exists w'. split; [|exact Hsame].
  rewrite Hrun. by vm_compute.
Defined.

(** Without the copy the caller would lose the key: popping from the dict
    at address 1 itself leaves it without "eval_loss". *)
Example pop_without_copy :
  heap (snd (dict_pop 1%positive "eval_loss" VNone w_callback)) !! 1%positive
  = Some (ODict {[ "epoch" := VFloat f64_one ]}).
Proof. by vm_compute. Qed.

(** Without the key, the objective is None. *)
Example compute_objective_without_loss :
  fst (trials_eval_callback.compute_objective 1%positive
         (World {[ 1%positive := ODict {[ "epoch" := VFloat f64_one ]} ]}
                ∅ ∅ (λ _, true) [] []))
  = Ret VNone.
Proof. by vm_compute. Qed.

(** ** The name [math] in [trials_eval_callback.py] *)

Section math.
Context {float : Type}.
Variable float_str : float → string.
Variable json_dumps : option (gmap string (pyval float)) → string.
Import trials_eval_callback.

Lemma known_math (names : list string) :
  bool_decide ("math" ∈ names) = false →
  @known float names !! "math" = None.
Proof.
  intros H%bool_decide_eq_false. unfold known.
  apply lookup_gset_to_gmap_None. by rewrite elem_of_list_to_set.
Qed.

(** No statement of the module binds [math], and it is no builtin: the
    name resolves to what a wildcard import gave it, the later import
    first, or to nothing. *)
Lemma resolve_math (cfg mdl : gmap string (@gobj float)) :
  resolve cfg mdl "math" =
    match mdl !! "math" with
    | Some g => Some (Star g)
    | None =>
        match cfg !! "math" with
        | Some g => Some (Star g)
        | None => None
        end
    end.
Proof.
  unfold resolve, module_globals.
  rewrite !lookup_union, !lookup_fmap, !known_math by (by vm_compute).
  by destruct (mdl !! "math"), (cfg !! "math").
Qed.

Lemma load_math_exp_unbound (cfg mdl : gmap string (@gobj float)) :
  cfg !! "math" = None → mdl !! "math" = None →
  load_attr cfg mdl "math" "exp" = Raise (NameError "math").
Proof. intros Hc Hm. unfold load_attr. by rewrite resolve_math, Hc, Hm. Qed.

(** C9, with its condition: when neither wildcard import binds [math],
    [on_evaluate], called with metrics while a save is due, raises
    NameError and has changed nothing; and [on_train_end] raises on every
    call, before anything is saved: the files are as they were.  What it
    raises is NameError once the state has a checkpoint path and a dict of
    parameters to copy. *)
Theorem math_unbound_NameError (cfg mdl : gmap string (@gobj float)) :
  cfg !! "math" = None → mdl !! "math" = None →
  (∀ self state control kwargs m (w : world float),
     should_save control = true → kwargs !! "metrics" = Some m →
     on_evaluate json_dumps cfg mdl self state control kwargs w
     = (Raise (NameError "math"), w))
  ∧ (∀ self args state control kwargs (w : world float),
       ∃ e w', on_train_end cfg mdl self args state control kwargs w
               = (Raise e, w')
         ∧ files w' = files w
         ∧ (∀ ckpt p d, best_model_checkpoint state = Some ckpt →
                        trial_params state = Some p →
                        heap w !! p = Some (ODict d) →
                        e = NameError "math")).
Proof.
  intros Hcfg Hmdl.
  pose proof (load_math_exp_unbound cfg mdl Hcfg Hmdl) as Hload.
  split.
  - intros self state control kwargs m w Hsave Hmetrics.
    unfold on_evaluate. rewrite Hmetrics, lift_bind, Hsave, Hload.
    apply bind_raise. by rewrite lift_bind.
  - intros self args state control kwargs w. unfold on_train_end.
    rewrite lift_bind. unfold checkpoint_dir.
    destruct (best_model_checkpoint state) as [ckpt|].
    2:{ eexists _, w. split; [done|]. split; [done|]. intros; simplify_eq. }
    rewrite lift_bind.
    destruct (trial_params state) as [p|].
    2:{ eexists _, w. split; [done|]. split; [done|]. intros; simplify_eq. }
    destruct (heap w !! p) as [o|] eqn:Hp.
    2:{ eexists _, w. split; [apply bind_raise; unfold dict_copy;
                              by rewrite Hp|].
        split; [done|]. intros; simplify_eq. }
    destruct o as [d|m].
    2:{ eexists _, w. split; [apply bind_raise; unfold dict_copy;
                              by rewrite Hp|].
        split; [done|]. intros; simplify_eq. }
    destruct (alloc_run (ODict d) w) as [Halloc _].
    set (l := fresh (dom (heap w))) in *.
    rewrite (bind_ret _ _ w l (set_heap (<[l:=ODict d]> (heap w)) w))
      by (unfold dict_copy; by rewrite Hp).
    unfold mbind at 1, py_bind at 1, dict_setitem at 1.
    unfold set_heap at 1; simpl. rewrite lookup_insert_eq.
    unfold mbind at 1, py_bind at 1, dict_setitem at 1.
    unfold set_heap at 1; simpl. rewrite lookup_insert_eq.
    rewrite lift_bind, Hload.
    eexists _, _. split; [done|]. split; [done|]. by intros.
Qed.

End math.

(** With no [math] from the wildcard imports: [on_evaluate] stops at the
    name and the metrics are untouched; [on_train_end] stops at it too,
    with nothing saved. *)
Lemma math_unbound_NameError_witness :
  (∅ : gmap string (@trials_eval_callback.gobj f64)) !! "math" = None
  ∧ trials_eval_callback.on_evaluate json_text ∅ ∅ 2%positive state_run3
      saving {[ "metrics" := 1%positive ]} w_callback
    = (Raise (NameError "math"), w_callback)
  ∧ ∃ e w', trials_eval_callback.on_train_end ∅ ∅ 2%positive one_gpu
              state_run3 saving ∅ w_callback = (Raise e, w')
      ∧ files w' = files w_callback
      ∧ e = NameError "math".
Proof.
  assert (Hno : (∅ : gmap string (@trials_eval_callback.gobj f64)) !! "math"
                = None) by done.
  destruct (math_unbound_NameError json_text ∅ ∅ Hno Hno) as [Heval Hend].
  split; [exact Hno|]. split.
  - apply (Heval 2%positive state_run3 saving _ 1%positive w_callback);
      by vm_compute.
  - destruct (Hend 2%positive one_gpu state_run3 saving ∅ w_callback)
      as (e & w' & Hrun & Hfiles & Hname).
    exists e, w'. split; [exact Hrun|]. split; [exact Hfiles|].
    apply (Hname "/models/run-3/checkpoint-12" 3%positive params_run3);
      by vm_compute.
Defined.

(** C9, refuted as stated: let the wildcard import of line 6 bind [math].
    Then [on_evaluate], with a save due, returns normally and the metrics
    have their perplexity; and [on_train_end] returns normally, having
    written [final_results.json] with a best_perplexity in it. *)
Lemma math_from_wildcard_import :
  (let r := trials_eval_callback.on_evaluate json_text ∅ mdl_with_math
              2%positive state_run3 saving {[ "metrics" := 1%positive ]}
              w_zero_loss in
   fst r = Ret tt
   ∧ ∃ d, heap (snd r) !! 1%positive = Some (ODict d)
          ∧ d !! "perplexity" = Some (VFloat f64_one))
  ∧ (let r := trials_eval_callback.on_train_end ∅ mdl_with_math 2%positive
                one_gpu state_run3 saving ∅ w_zero_loss in
     fst r = Ret tt
     ∧ ∃ d, files (snd r) !! "/models/run-3/final_results.json"
            = Some (JsonDoc d)
            ∧ d !! "best_perplexity" = Some (VFloat f64_one)).
Proof.
  split; (split; [by vm_compute|]); eexists; split; by vm_compute.
Qed.

(** * More of the code *)

(** ** Strings *)

Lemma string_app_nil (s : string) : EmptyString +:+ s = s.
Proof. reflexivity. Qed.

Lemma string_app_cons (x : ascii) (a b : string) :
  String x a +:+ b = String x (a +:+ b).
Proof. reflexivity. Qed.

Lemma string_app_assoc (a b c : string) : (a +:+ b) +:+ c = a +:+ (b +:+ c).
Proof.
  induction a as [|x a IH]; [done|]. rewrite !string_app_cons. by f_equal.
Qed.

Lemma string_app_empty_r (a : string) : a +:+ EmptyString = a.
Proof.
  induction a as [|x a IH]; [done|]. rewrite string_app_cons. by f_equal.
Qed.




(** ** [str.split] on a character *)

Lemma split_char_cons (c : ascii) (s : string) :
  ∃ hd tl, split_char c s = hd :: tl.
Proof.
  induction s as [|a s (hd & tl & IH)]; simpl; [by eexists _, _|].
  destruct (Ascii.eqb a c); [by eexists _, _|].
  rewrite IH. by eexists _, _.
Qed.

(** Where the separator does not occur there is one piece, the string. *)
Lemma split_char_absent (c : ascii) (s : string) :
  c ∉ list_ascii_of_string s → split_char c s = [s].
Proof.
  induction s as [|a s IH]; simpl; [done|].
  rewrite not_elem_of_cons. intros [Hne Hs].
  destruct (Ascii.eqb_spec a c) as [->|_]; [done|]. by rewrite IH.
Qed.

(** A separator between two strings keeps their pieces apart. *)
Lemma split_char_app (c : ascii) (a b : string) :
  split_char c (a +:+ String c b) = (split_char c a ++ split_char c b)%list.
Proof.
  induction a as [|x a IH].
  - rewrite string_app_nil. simpl. by rewrite Ascii.eqb_refl.
  - rewrite string_app_cons. simpl.
    destruct (Ascii.eqb x c); [by rewrite IH|].
    rewrite IH. by destruct (split_char_cons c a) as (hd & tl & ->).
Qed.

Lemma split_char_unlines (ls : list string) (s : string) :
  Forall one_line ls → one_line s →
  split_char lf (unlines ls +:+ s) = (ls ++ [s])%list.
Proof.
  intros Hls Hs. induction Hls as [|l ls Hl _ IH]; cbn [unlines].
  - by apply split_char_absent.
  - rewrite string_app_assoc, string_app_cons.
    rewrite split_char_app, IH. by rewrite split_char_absent.
Qed.

(** ** Reading the output of nvidia-smi *)

Section smi.
Import control_trials.

Lemma memory_free_values_lines header lines rest :
  one_line header → Forall one_line lines → one_line rest →
  all_ascii (unlines (header :: lines) +:+ rest) →
  memory_free_values (unlines (header :: lines) +:+ rest)
  = comprehension free_value lines.
Proof.
  unfold memory_free_values, decode_ascii, all_ascii.
  intros Hh Hls Hr ->.
  assert (Hsplit : split_char lf (unlines (header :: lines) +:+ rest)
                   = ((header :: lines) ++ [rest])%list)
    by (apply split_char_unlines; by try constructor).
  unfold lf in Hsplit at 1. rewrite Hsplit.
  unfold drop_first, drop_last. by rewrite removelast_last.
Qed.

(** X1: of the bytes nvidia-smi printed, [pick_gpu] reads the lines
    between the first and the last line feed, and those only: the first
    line is dropped as the header whatever it holds, and so is what
    follows the last line feed, a device's line included if nothing ends
    it.  Output without a line feed holds no device; a byte outside ASCII
    anywhere makes the reading raise UnicodeDecodeError. *)
Theorem memory_free_values_between_line_feeds :
  (∀ raw, ¬ all_ascii raw → memory_free_values raw = Raise UnicodeDecodeError)
  ∧ (∀ s, all_ascii s → one_line s → memory_free_values s = Ret [])
  ∧ (∀ header lines rest,
       one_line header → Forall one_line lines → one_line rest →
       all_ascii (unlines (header :: lines) +:+ rest) →
       memory_free_values (unlines (header :: lines) +:+ rest)
       = comprehension free_value lines).
Proof.
  split; [|split]; [unfold memory_free_values, decode_ascii, all_ascii..|].
  - intros raw Hraw. by destruct (forallb _ _).
  - intros s -> Hs.
    pose proof (split_char_absent lf s Hs) as Hsplit. unfold lf in Hsplit.
    by rewrite Hsplit.
  - apply memory_free_values_lines.
Qed.

End smi.

(** Two devices and, after the last line feed, a third whose line nothing
    ends: the first two are read, the third is not. *)
Lemma memory_free_values_between_line_feeds_witness :
  control_trials.memory_free_values
    (unlines ["memory.free [MiB]"; "11019 MiB"; "32510 MiB"] +:+ "48676 MiB")
  = Ret [11019; 32510].
Proof.
  destruct memory_free_values_between_line_feeds as (_ & _ & Hread).
  rewrite Hread.
  - by vm_compute.
  - unfold one_line. by apply (bool_decide_unpack _); vm_compute.
  - repeat constructor; unfold one_line;
      by apply (bool_decide_unpack _); vm_compute.
  - unfold one_line. by apply (bool_decide_unpack _); vm_compute.
  - by vm_compute.
Defined.

(** ** [str.split] on white space, and the first word of a line *)

Section words.
Import control_trials.

Lemma no_space_cons a s :
  no_space (String a s) ↔ is_space a = false ∧ no_space s.
Proof.
  unfold no_space. simpl. rewrite andb_true_iff, negb_true_iff. done.
Qed.

Lemma all_space_cons a s :
  all_space (String a s) ↔ is_space a = true ∧ all_space s.
Proof. unfold all_space. simpl. by rewrite andb_true_iff. Qed.

(** A run without white space goes whole into the word that starts there. *)
Lemma split_ws_go_word (tok t : string) :
  no_space tok →
  split_ws_go (tok +:+ t)
  = (tok +:+ fst (split_ws_go t), snd (split_ws_go t)).
Proof.
  induction tok as [|a tok IH]; intros Htok.
  - rewrite !string_app_nil. by destruct (split_ws_go t).
  - apply no_space_cons in Htok as [Ha Htok].
    rewrite !string_app_cons. simpl. rewrite (IH Htok), Ha. done.
Qed.

Lemma split_ws_go_space (a : ascii) (s : string) :
  is_space a = true → split_ws_go (String a s) = (EmptyString, split_ws s).
Proof.
  intros Ha. unfold split_ws. simpl. rewrite Ha.
  by destruct (split_ws_go s).
Qed.

Lemma split_ws_space (a : ascii) (s : string) :
  is_space a = true → split_ws (String a s) = split_ws s.
Proof.
  intros Ha. unfold split_ws. simpl. rewrite Ha.
  by destruct (split_ws_go s) as [[|? ?] ?].
Qed.

Lemma split_ws_lead (lead s : string) :
  all_space lead → split_ws (lead +:+ s) = split_ws s.
Proof.
  induction lead as [|a lead IH]; intros Hlead; [done|].
  apply all_space_cons in Hlead as [Ha Hlead].
  rewrite string_app_cons, split_ws_space by done. by apply IH.
Qed.

Lemma split_ws_blank (s : string) : all_space s → split_ws s = [].
Proof.
  intros Hs. rewrite <-(string_app_empty_r s). by rewrite split_ws_lead.
Qed.

(** The first word, when white space follows it and when nothing does. *)
Lemma split_ws_first (tok : string) (a : ascii) (rest : string) :
  no_space tok → tok ≠ EmptyString → is_space a = true →
  split_ws (tok +:+ String a rest) = tok :: split_ws rest.
Proof.
  intros Htok Hne Ha. unfold split_ws at 1.
  rewrite split_ws_go_word, split_ws_go_space by done.
  cbn [fst snd]. rewrite string_app_empty_r. by destruct tok.
Qed.

Lemma split_ws_only (tok : string) :
  no_space tok → tok ≠ EmptyString → split_ws tok = [tok].
Proof.
  intros Htok Hne. rewrite <-(string_app_empty_r tok) at 1.
  unfold split_ws. rewrite split_ws_go_word by done. cbn [split_ws_go fst snd].
  rewrite string_app_empty_r. by destruct tok.
Qed.

Lemma free_value_word (lead tok : string) (a : ascii) (rest : string) :
  all_space lead → no_space tok → tok ≠ EmptyString → is_space a = true →
  free_value (lead +:+ tok +:+ String a rest) = py_int tok.
Proof.
  intros Hlead Htok Hne Ha. unfold free_value.
  by rewrite split_ws_lead, split_ws_first.
Qed.

(** X2: of a line, [pick_gpu] reads the first word and nothing else.  White
    space before it is skipped and whatever follows it, the unit and any
    further column, is never looked at: the line counts as [int] of that
    word.  A line that is empty or all white space has no first word and
    raises IndexError. *)
Theorem free_value_reads_first_word :
  (∀ line, all_space line → free_value line = Raise IndexError)
  ∧ (∀ lead tok a rest,
       all_space lead → no_space tok → tok ≠ EmptyString →
       is_space a = true →
       free_value (lead +:+ tok +:+ String a rest) = py_int tok)
  ∧ (∀ lead tok,
       all_space lead → no_space tok → tok ≠ EmptyString →
       free_value (lead +:+ tok) = py_int tok).
Proof.
  split; [|split].
  - intros line Hline. unfold free_value. by rewrite split_ws_blank.
  - apply free_value_word.
  - intros lead tok Hlead Htok Hne. unfold free_value.
    by rewrite split_ws_lead, split_ws_only.
Qed.

End words.

(** 48676 GiB counts as 48676 MiB does; an empty line raises IndexError. *)
Lemma free_value_reads_first_word_witness :
  control_trials.free_value (" " +:+ "48676" +:+ String " " "GiB, 12 %")
  = Ret 48676
  ∧ control_trials.free_value EmptyString = Raise IndexError.
Proof.
  destruct free_value_reads_first_word as (Hblank & Hword & _).
  split.
  - rewrite Hword; by vm_compute.
  - apply Hblank. by vm_compute.
Defined.

(** ** [int] of a decimal numeral *)

Section numerals.
Import control_trials.







End numerals.

(** ** The round trip through nvidia-smi's format *)

Section round_trip.
Import control_trials.






End round_trip.

(** ** The directory next to a checkpoint *)

Section checkpoint.
Context {float : Type}.
Import trials_eval_callback.

Lemma prefix_cons (a b : ascii) (s t : string) :
  String.prefix (String a s) (String b t) = true
  ↔ a = b ∧ String.prefix s t = true.
Proof.
  simpl. destruct (ascii_dec a b) as [->|Hne]; [by split; [intros ?|intros [_ ?]]|].
  split; [done|]. by intros [? _].
Qed.

Lemma occurs_at_0 (sep s : string) :
  occurs_at sep s 0 ↔ String.prefix sep s = true.
Proof.
  split.
  - intros (before & after & -> & Hlen & Hpre). by destruct before.
  - intros Hpre. by exists EmptyString, s.
Qed.

Lemma occurs_at_S (sep : string) (a : ascii) (s : string) (i : nat) :
  occurs_at sep (String a s) (S i) ↔ occurs_at sep s i.
Proof.
  split.
  - intros (before & after & Heq & Hlen & Hpre).
    destruct before as [|b before]; [done|].
    rewrite string_app_cons in Heq. injection Heq as -> ->.
    exists before, after. split; [done|]. split; [|done].
    simpl in Hlen. lia.
  - intros (before & after & -> & <- & Hpre).
    by exists (String a before), after.
Qed.

(** [before_first] stops at the first place where [sep] stands, and
    takes the whole string when there is none. *)
Lemma before_first_spec (sep s : string) :
  ∃ rest, s = before_first sep s +:+ rest
    ∧ (rest = EmptyString ∨ String.prefix sep rest = true)
    ∧ ∀ i, (i < String.length (before_first sep s))%nat → ¬ occurs_at sep s i.
Proof.
  induction s as [|a s (rest & Hs & Hrest & Hfirst)].
  - assert (before_first sep EmptyString = EmptyString) as ->
      by (by destruct sep).
    exists EmptyString. split; [done|]. split; [by left|].
    simpl. intros i Hi. lia.
  - cbn [before_first]. destruct (String.prefix sep (String a s)) eqn:Hpre.
    + exists (String a s). split; [done|]. split; [by right|].
      simpl. intros i Hi. lia.
    + exists rest. split; [by rewrite string_app_cons, <-Hs|].
      split; [done|]. intros [|i] Hi.
      * rewrite occurs_at_0. by rewrite Hpre.
      * rewrite occurs_at_S. apply Hfirst. simpl in Hi. lia.
Qed.

(** X4: the directory [on_save] and [on_train_end] write to is the part
    of [state.best_model_checkpoint] before the first "/checkpoint" in it:
    a prefix of the path, continued by "/checkpoint" at a place before
    which "/checkpoint" stands nowhere.  A path without "/checkpoint" is
    taken whole; without a path (None) the call raises AttributeError. *)
Theorem checkpoint_dir_first_occurrence (state : @TrainerState float) :
  match best_model_checkpoint state with
  | None => checkpoint_dir state = Raise (AttributeError "split")
  | Some ckpt =>
      ∃ dir rest, checkpoint_dir state = Ret (ckpt, dir)
        ∧ ckpt = dir +:+ rest
        ∧ (rest = EmptyString ∨ String.prefix "/checkpoint" rest = true)
        ∧ ∀ i, (i < String.length dir)%nat → ¬ occurs_at "/checkpoint" ckpt i
  end.
Proof.
  unfold checkpoint_dir. destruct (best_model_checkpoint state) as [ckpt|];
    [|done].
  destruct (before_first_spec "/checkpoint" ckpt) as (rest & H1 & H2 & H3).
  by exists (before_first "/checkpoint" ckpt), rest.
Qed.

End checkpoint.

Section run_directory.
Context {float : Type}.
Import trials_eval_callback.

Lemma prefix_nil (s : string) : String.prefix EmptyString s = true.
Proof. by destruct s. Qed.

Lemma prefix_app_l (sep b t : string) :
  String.prefix sep b = true → String.prefix sep (b +:+ t) = true.
Proof.
  revert b. induction sep as [|a sep IH]; intros b;
    [by rewrite !prefix_nil|].
  destruct b as [|x b]; [by simpl|]. rewrite string_app_cons, !prefix_cons.
  intros [-> Hpre]. split; [done|]. by apply IH.
Qed.

(** No "/checkpoint" begins inside [b] and ends inside a "/checkpoint"
    that follows [b]: the text has one "/", at its head. *)
Lemma no_straddle (b rest : string) :
  b ≠ EmptyString →
  String.prefix "/checkpoint" (b +:+ "/checkpoint" +:+ rest) = true →
  String.prefix "/checkpoint" b = true.
Proof.
  intros Hne H.
  destruct b as [|x b]; [done|].
  rewrite string_app_cons in H. apply prefix_cons in H as [<- H].
  apply prefix_cons. split; [done|].
  repeat (destruct b as [|x b];
          [by vm_compute in H
          |rewrite string_app_cons in H; apply prefix_cons in H as [<- H];
           first [done|apply prefix_cons; split; [done|]]]).
  apply prefix_nil.
Qed.

Lemma before_first_run_dir (d rest : string) :
  before_first "/checkpoint" (d +:+ "/checkpoint" +:+ rest)
  = before_first "/checkpoint" d.
Proof.
  induction d as [|x d IH].
  - rewrite string_app_nil. by destruct rest.
  - assert (Hsame : String.prefix "/checkpoint"
                      (String x d +:+ "/checkpoint" +:+ rest)
                    = String.prefix "/checkpoint" (String x d)).
    { destruct (String.prefix "/checkpoint" (String x d)) eqn:Hd.
      - by apply prefix_app_l.
      - destruct (String.prefix _ (_ +:+ _)) eqn:Hall; [|done].
        apply no_straddle in Hall; [congruence|done]. }
    change (String x d +:+ "/checkpoint" +:+ rest)
      with (String x (d +:+ "/checkpoint" +:+ rest)) in *.
    cbn [before_first]. rewrite Hsame. by rewrite IH.
Qed.

(** X5: for a checkpoint at [<run>/checkpoint...] the directory depends
    on [<run>] alone.  It is [<run>] itself when "/checkpoint" occurs
    nowhere in [<run>]; otherwise it is [<run>] cut at its own first
    "/checkpoint", and the records are written there. *)
Theorem checkpoint_dir_of_run (state : @TrainerState float) (run rest : string) :
  best_model_checkpoint state = Some (run +:+ "/checkpoint" +:+ rest) →
  checkpoint_dir state
  = Ret (run +:+ "/checkpoint" +:+ rest, before_first "/checkpoint" run)
  ∧ ((∀ i, ¬ occurs_at "/checkpoint" run i) →
     before_first "/checkpoint" run = run).
Proof.
  intros Hckpt. unfold checkpoint_dir. rewrite Hckpt, before_first_run_dir.
  split; [done|]. intros Hnone.
  destruct (before_first_spec "/checkpoint" run) as (tail & Hrun & Htail & _).
  destruct Htail as [->|Hpre].
  - by rewrite string_app_empty_r in Hrun.
  - exfalso. apply (Hnone (String.length (before_first "/checkpoint" run))).
    by exists (before_first "/checkpoint" run), tail.
Qed.

End run_directory.

(** Run 3 under /models: the directory is /models/run-3.  Run 3 under
    /data/checkpoints: the directory is /data. *)
Lemma checkpoint_dir_of_run_witness :
  trials_eval_callback.checkpoint_dir state_run3
  = Ret ("/models/run-3/checkpoint-12", "/models/run-3")
  ∧ trials_eval_callback.checkpoint_dir
      {| trials_eval_callback.trial_params := None;
         trials_eval_callback.best_metric := VFloat f64_zero;
         trials_eval_callback.best_model_checkpoint :=
           Some "/data/checkpoints/run-3/checkpoint-12" |}
    = Ret ("/data/checkpoints/run-3/checkpoint-12", "/data").
Proof.
  split.
  - destruct (checkpoint_dir_of_run state_run3 "/models/run-3" "-12")
      as [Hdir _]; [done|].
    rewrite Hdir. by vm_compute.
  - match goal with |- trials_eval_callback.checkpoint_dir ?st = _ =>
      destruct (checkpoint_dir_of_run st "/data/checkpoints/run-3" "-12")
        as [Hdir _]; [done|]; rewrite Hdir
    end.
    by vm_compute.
Defined.

(** ** [evalLogsCallback]: what the callbacks do to the objects *)

Section heap_steps.
Context {float : Type}.

Lemma dict_getitem_run m k (d : gmap string (pyval float)) v (w : world float) :
  heap w !! m = Some (ODict d) → d !! k = Some v →
  dict_getitem m k w = (Ret v, w).
Proof. intros Hm Hk. unfold dict_getitem. by rewrite Hm, Hk. Qed.

Lemma dict_getitem_missing m k (d : gmap string (pyval float)) (w : world float) :
  heap w !! m = Some (ODict d) → d !! k = None →
  dict_getitem m k w = (Raise (KeyError k), w).
Proof. intros Hm Hk. unfold dict_getitem. by rewrite Hm, Hk. Qed.

Lemma dict_setitem_run m k v (d : gmap string (pyval float)) (w : world float) :
  heap w !! m = Some (ODict d) →
  dict_setitem m k v w
  = (Ret tt, set_heap (<[m:=ODict (<[k:=v]> d)]> (heap w)) w).
Proof. intros Hm. unfold dict_setitem. by rewrite Hm. Qed.

Lemma dict_copy_run m (d : gmap string (pyval float)) (w : world float) :
  heap w !! m = Some (ODict d) →
  ∃ l, heap w !! l = None
       ∧ dict_copy m w = (Ret l, set_heap (<[l:=ODict d]> (heap w)) w).
Proof.
  intros Hm. exists (fresh (dom (heap w))).
  destruct (alloc_run (ODict d) w) as [Halloc Hfresh].
  split; [done|]. unfold dict_copy. by rewrite Hm.
Qed.

Lemma set_metrics_run self old m (w : world float) :
  heap w !! self = Some (OCallback old) →
  set_metrics self m w
  = (Ret tt, set_heap (<[self:=OCallback m]> (heap w)) w).
Proof. intros Hself. unfold set_metrics. by rewrite Hself. Qed.

Lemma get_metrics_run self m (w : world float) :
  heap w !! self = Some (OCallback m) → get_metrics self w = (Ret m, w).
Proof. intros Hself. unfold get_metrics. by rewrite Hself. Qed.


End heap_steps.

Section on_evaluate_facts.
Context {float : Type}.
Variable json_dumps : option (gmap string (pyval float)) → string.
Import trials_eval_callback.

Lemma json_dumps_of_dict m (d : gmap string (pyval float)) (w : world float) :
  heap w !! m = Some (ODict d) →
  json_dumps_of json_dumps (Some m) w = (Ret (json_dumps (Some d)), w).
Proof. intros Hm. unfold json_dumps_of. by rewrite Hm. Qed.

(** The end of [on_evaluate], from [self.metrics = metrics.copy()] on. *)
Lemma on_evaluate_tail self m old (d : gmap string (pyval float))
    (w : world float) :
  heap w !! m = Some (ODict d) → heap w !! self = Some (OCallback old) →
  ∃ l, heap w !! l = None
    ∧ (copy ← dict_copy m;
       set_metrics self copy;;
       text ← json_dumps_of json_dumps (Some m);
       log_info text) w
      = (Ret tt,
         World (<[self:=OCallback l]> (<[l:=ODict d]> (heap w)))
               (environ w) (files w) (can_write w) (stdout w)
               (logged w ++ [json_dumps (Some d)])).
Proof.
  intros Hm Hself.
  destruct (dict_copy_run m d w Hm) as (l & Hl & Hcopy).
  exists l. split; [done|].
  rewrite (bind_ret _ _ _ _ _ Hcopy).
  assert (l ≠ self) by congruence. assert (l ≠ m) by congruence.
  erewrite bind_ret; last first.
  { apply (set_metrics_run self old). simpl. by rewrite lookup_insert_ne. }
  erewrite bind_ret; last first.
  { apply (json_dumps_of_dict m d). simpl.
    rewrite !lookup_insert_ne by congruence. done. }
  done.
Qed.



End on_evaluate_facts.


Section on_evaluate_save.
Context {float : Type}.
Variable json_dumps : option (gmap string (pyval float)) → string.
Import trials_eval_callback.

(** X7: with a save due and [math.exp] at hand, [on_evaluate] writes into
    the caller's own dict: after the call the dict the Trainer passed holds
    "perplexity", [exp] of its "eval_loss", and "trial_params", the JSON
    text of the trial's parameters, besides what it held; [self.metrics]
    is a new dict with those same items, and they are what is logged. *)
Theorem on_evaluate_adds_to_the_callers_dict cfg mdl self state control kwargs
    m old (d : gmap string (pyval float)) exp loss perplexity text
    (w : world float) :
  should_save control = true → kwargs !! "metrics" = Some m →
  heap w !! m = Some (ODict d) → heap w !! self = Some (OCallback old) →
  load_attr cfg mdl "math" "exp" = Ret exp →
  d !! "eval_loss" = Some loss → exp loss = Ret perplexity →
  ((trial_params state = None ∧ text = json_dumps None)
   ∨ (∃ tp dp, trial_params state = Some tp ∧ tp ≠ m
               ∧ heap w !! tp = Some (ODict dp)
               ∧ text = json_dumps (Some dp))) →
  let d' := <["trial_params":=VStr text]> (<["perplexity":=perplexity]> d) in
  ∃ l, heap w !! l = None
    ∧ on_evaluate json_dumps cfg mdl self state control kwargs w
      = (Ret tt,
         World (<[self:=OCallback l]>
                  (<[l:=ODict d']> (<[m:=ODict d']> (heap w))))
               (environ w) (files w) (can_write w) (stdout w)
               (logged w ++ [json_dumps (Some d')])).
Proof.
  intros Hsave Hmetrics Hm Hself Hexp Hloss Hp Hparams d'.
  assert (Hne : self ≠ m) by congruence.
  set (d1 := <["perplexity":=perplexity]> d).
  set (w1 := set_heap (<[m:=ODict d1]> (heap w)) w).
  set (w2 := set_heap (<[m:=ODict d']> (heap w)) w).
  assert (Htext : json_dumps_of json_dumps (trial_params state) w1
                  = (Ret text, w1)).
  { unfold json_dumps_of.
    destruct Hparams as [[-> ->]|(tp & dp & -> & Htp & Hdp & ->)]; [done|].
    subst w1. cbn [heap set_heap]. by rewrite lookup_insert_ne, Hdp. }
  assert (Hbranch :
    (exp ← lift (load_attr cfg mdl "math" "exp");
     loss ← dict_getitem m "eval_loss";
     perplexity ← lift (exp loss);
     dict_setitem m "perplexity" perplexity;;
     params ← json_dumps_of json_dumps (trial_params state);
     dict_setitem m "trial_params" (VStr params)) w = (Ret tt, w2)).
  { rewrite lift_bind, Hexp.
    rewrite (bind_ret _ _ _ _ _ (dict_getitem_run m _ d loss w Hm Hloss)).
    rewrite lift_bind, Hp.
    rewrite (bind_ret _ _ _ _ _ (dict_setitem_run m _ perplexity d w Hm)).
    fold d1 w1. rewrite (bind_ret _ _ _ _ _ Htext).
    rewrite (dict_setitem_run m _ _ d1 w1)
      by (subst w1; cbn [heap set_heap]; by rewrite lookup_insert_eq).
    subst w1 w2. unfold set_heap. cbn [heap environ files can_write stdout
                                         logged].
    by rewrite insert_insert_eq. }
  destruct (on_evaluate_tail json_dumps self m old d' w2) as (l & Hl & Htail).
  { subst w2. cbn [heap set_heap]. by rewrite lookup_insert_eq. }
  { subst w2. cbn [heap set_heap]. by rewrite lookup_insert_ne. }
  exists l. split.
  { subst w2. cbn [heap set_heap] in Hl.
    by apply lookup_insert_None in Hl as [? _]. }
  unfold on_evaluate. rewrite Hmetrics, lift_bind, Hsave.
  rewrite (bind_ret _ _ _ _ _ Hbranch). exact Htail.
Qed.

End on_evaluate_save.

(** On [w_zero_loss], with [math] from the wildcard import: the dict at
    address 1, the caller's, has its perplexity after the call. *)
Lemma on_evaluate_adds_to_the_callers_dict_witness :
  ∃ l w', trials_eval_callback.on_evaluate json_text ∅ mdl_with_math
            2%positive state_run3 saving {[ "metrics" := 1%positive ]}
            w_zero_loss = (Ret tt, w')
    ∧ heap w_zero_loss !! l = None
    ∧ ∃ d', heap w' !! 1%positive = Some (ODict d')
            ∧ heap w' !! l = Some (ODict d')
            ∧ d' !! "perplexity" = Some (VFloat f64_one).
Proof.
  destruct (on_evaluate_adds_to_the_callers_dict json_text ∅ mdl_with_math
              2%positive state_run3 saving {[ "metrics" := 1%positive ]}
              1%positive 1%positive
              {[ "epoch" := VFloat f64_one; "eval_loss" := VFloat f64_zero ]}
              exp_at_zero (VFloat f64_zero) (VFloat f64_one)
              (json_text (Some params_run3)) w_zero_loss)
    as (l & Hl & Hrun); [by vm_compute..| |].
  { right. exists 3%positive, params_run3. by vm_compute. }
  eexists l, _. split; [exact Hrun|]. split; [exact Hl|]. cbn [heap].
  assert (l ≠ 2%positive) by (intros ->; by vm_compute in Hl).
  assert (l ≠ 1%positive) by (intros ->; by vm_compute in Hl).
  eexists. split; [by rewrite 2!lookup_insert_ne, lookup_insert_eq by done|].
  split; [by rewrite lookup_insert_ne, lookup_insert_eq by done|].
  by vm_compute.
Defined.

Section on_save_facts.
Context {float : Type}.
Variable float_str : float → string.
Variable json_dumps : option (gmap string (pyval float)) → string.
Import trials_eval_callback.

Lemma init_run (w : world float) :
  ∃ self m, heap w !! self = None ∧ heap w !! m = None ∧ self ≠ m
    ∧ init w = (Ret self,
                set_heap (<[self:=OCallback m]> (<[m:=ODict ∅]> (heap w))) w).
Proof.
  unfold init.
  destruct (alloc_run (ODict ∅) w) as [Hm Hfresh_m].
  set (m := fresh (dom (heap w))) in *.
  set (w1 := set_heap (<[m:=ODict ∅]> (heap w)) w) in *.
  destruct (alloc_run (OCallback m) w1) as [Hself Hfresh_self].
  set (self := fresh (dom (heap w1))) in *.
  assert (self ≠ m).
  { intros Heq. rewrite Heq in Hfresh_self. subst w1.
    cbn [heap set_heap] in Hfresh_self. by rewrite lookup_insert_eq in Hfresh_self. }
  exists self, m. split; [|split; [done|split; [done|]]].
  - subst w1. cbn [heap set_heap] in Hfresh_self.
    by rewrite lookup_insert_ne in Hfresh_self.
  - rewrite (bind_ret _ _ _ _ _ Hm). by rewrite Hself.
Qed.

(** A callback whose metrics have no "epoch" cannot save. *)
Lemma on_save_without_epoch self state control kwargs ckpt m
    (d : gmap string (pyval float)) (w : world float) :
  best_model_checkpoint state = Some ckpt →
  heap w !! self = Some (OCallback m) → heap w !! m = Some (ODict d) →
  d !! "epoch" = None →
  ∃ w', on_save float_str self state control kwargs w
        = (Raise (KeyError "epoch"), w')
    ∧ files w' = files w ∧ heap w' = heap w.
Proof.
  intros Hckpt Hself Hm Hepoch. rewrite on_save_run.
  unfold checkpoint_dir. rewrite Hckpt, Hself, Hm, Hepoch. cbv zeta.
  eexists. split; [done|].
  destruct (print_metrics_frame m (before_first "/checkpoint" ckpt) w)
    as (Hh & Hf & _). by split.
Qed.

(** X8: a callback as [__init__] leaves it, its metrics the empty dict,
    cannot save: [on_save] raises KeyError for "epoch", and no file is
    written or changed. *)
Theorem on_save_before_any_evaluation state control kwargs ckpt
    (w : world float) :
  best_model_checkpoint state = Some ckpt →
  ∃ self w1 w2, init w = (Ret self, w1)
    ∧ on_save float_str self state control kwargs w1
      = (Raise (KeyError "epoch"), w2)
    ∧ files w2 = files w.
Proof.
  intros Hckpt.
  destruct (init_run w) as (self & m & _ & _ & Hne & Hinit).
  destruct (on_save_without_epoch self state control kwargs ckpt m ∅
              (set_heap (<[self:=OCallback m]> (<[m:=ODict ∅]> (heap w))) w))
    as (w2 & Hrun & Hfiles & _); [done|..].
  - cbn [heap set_heap]. by rewrite lookup_insert_eq.
  - cbn [heap set_heap]. by rewrite lookup_insert_ne, lookup_insert_eq.
  - done.
  - by eexists self, _, w2.
Qed.

End on_save_facts.

(** In the empty world, for run 3. *)
Lemma on_save_before_any_evaluation_witness :
  ∃ self w1 w2, trials_eval_callback.init w0 = (Ret self, w1)
    ∧ trials_eval_callback.on_save f64_str self state_run3 saving ∅ w1
      = (Raise (KeyError "epoch"), w2)
    ∧ files w2 = files w0.
Proof.
  apply (on_save_before_any_evaluation f64_str state_run3 saving ∅
           "/models/run-3/checkpoint-12" w0).
  by vm_compute.
Defined.

Section save_after_evaluate.
Context {float : Type}.
Variable float_str : float → string.
Variable json_dumps : option (gmap string (pyval float)) → string.
Import trials_eval_callback.



End save_after_evaluate.


Section on_train_end_facts.
Context {float : Type}.
Import trials_eval_callback.

Lemma dict_setitem_at l k v (dx : gmap string (pyval float))
    (h : gmap loc (obj float)) (w : world float) :
  dict_setitem l k v (set_heap (<[l:=ODict dx]> h) w)
  = (Ret tt, set_heap (<[l:=ODict (<[k:=v]> dx)]> h) w).
Proof.
  unfold dict_setitem. cbn [heap set_heap]. rewrite lookup_insert_eq.
  unfold set_heap. cbn [heap environ files can_write stdout logged].
  by rewrite insert_insert_eq.
Qed.

(** X10: with [math.exp] at hand, a checkpoint path, a dict of parameters
    and a writable path, [on_train_end] returns normally.  It writes one
    file, final_results.json in the checkpoint's directory, holding the
    trial's parameters and, over them, the four entries number_of_gpus,
    best_loss, best_perplexity and best_model_checkpoint; that record is a
    new dict, now [self.metrics], and the dict of parameters itself is as
    it was. *)
Theorem on_train_end_writes_the_final_record cfg mdl self args state control
    kwargs ckpt tp old (params : gmap string (pyval float)) exp perplexity
    (w : world float) :
  let path := os_path_join (before_first "/checkpoint" ckpt)
                ("final" +:+ "_results.json") in
  let record :=
    <["best_model_checkpoint":=VStr ckpt]>
      (<["best_perplexity":=perplexity]>
         (<["best_loss":=best_metric state]>
            (<["number_of_gpus":=VInt (n_gpu args)]> params))) in
  best_model_checkpoint state = Some ckpt → trial_params state = Some tp →
  heap w !! tp = Some (ODict params) →
  heap w !! self = Some (OCallback old) →
  load_attr cfg mdl "math" "exp" = Ret exp →
  exp (best_metric state) = Ret perplexity →
  can_write w path = true →
  ∃ l, heap w !! l = None
    ∧ on_train_end cfg mdl self args state control kwargs w
      = (Ret tt,
         World (<[self:=OCallback l]> (<[l:=ODict record]> (heap w)))
               (environ w) (<[path:=JsonDoc record]> (files w))
               (can_write w) (stdout w) (logged w)).
Proof.
  intros path record Hckpt Htp Hparams Hself Hexp Hp Hwrite.
  destruct (dict_copy_run tp params w Hparams) as (l & Hl & Hcopy).
  exists l. split; [done|].
  assert (l ≠ self) by congruence.
  unfold on_train_end, checkpoint_dir.
  rewrite Hckpt, lift_bind, Htp, lift_bind.
  rewrite (bind_ret _ _ _ _ _ Hcopy).
  rewrite (bind_ret _ _ _ _ _ (dict_setitem_at l _ _ _ _ _)).
  rewrite (bind_ret _ _ _ _ _ (dict_setitem_at l _ _ _ _ _)).
  rewrite lift_bind, Hexp, lift_bind, Hp.
  rewrite (bind_ret _ _ _ _ _ (dict_setitem_at l _ _ _ _ _)).
  rewrite (bind_ret _ _ _ _ _ (dict_setitem_at l _ _ _ _ _)).
  fold record.
  erewrite bind_ret; last first.
  { apply (set_metrics_run self old). cbn [heap set_heap].
    by rewrite lookup_insert_ne. }
  erewrite bind_ret; last first.
  { apply (get_metrics_run self l). cbn [heap set_heap].
    by rewrite lookup_insert_eq. }
  rewrite save_metrics_run. cbv zeta. fold path.
  cbn [heap can_write set_heap]. rewrite Hwrite.
  rewrite lookup_insert_ne, lookup_insert_eq by done. done.
Qed.

End on_train_end_facts.

(** On [w_zero_loss], with [math] from the wildcard import. *)
Lemma on_train_end_writes_the_final_record_witness :
  ∃ l w', trials_eval_callback.on_train_end ∅ mdl_with_math 2%positive
            one_gpu state_run3 saving ∅ w_zero_loss = (Ret tt, w')
    ∧ heap w_zero_loss !! l = None
    ∧ heap w' !! 3%positive = Some (ODict params_run3)
    ∧ ∃ record, files w' !! "/models/run-3/final_results.json"
                = Some (JsonDoc record)
        ∧ heap w' !! l = Some (ODict record)
        ∧ record !! "best_perplexity" = Some (VFloat f64_one)
        ∧ record !! "attention_probs_dropout_prob"
          = Some (VFloat (F64 false 1 (-2))).
Proof.
  destruct (on_train_end_writes_the_final_record ∅ mdl_with_math 2%positive
              one_gpu state_run3 saving ∅ "/models/run-3/checkpoint-12"
              3%positive 1%positive params_run3 exp_at_zero (VFloat f64_one)
              w_zero_loss)
    as (l & Hl & Hrun); [by vm_compute..|].
  eexists l, _. split; [exact Hrun|]. split; [exact Hl|]. cbn [heap files].
  assert (l ≠ 2%positive) by (intros ->; by vm_compute in Hl).
  assert (l ≠ 3%positive) by (intros ->; by vm_compute in Hl).
  split.
  { rewrite 2!lookup_insert_ne by done. by vm_compute. }
  eexists. split; [apply (lookup_insert_eq (files w_zero_loss))|].
  split; [by rewrite lookup_insert_ne, lookup_insert_eq by done|].
  split; by vm_compute.
Defined.

(** ** [MyPrunerCallback.on_evaluate]: what it touches *)

Section pruner_effects.
Context {float T : Type} `{!Trial float T}.
Variable float_str : float → string.
Import control_trials.



End pruner_effects.

(** ** [objective]: one directory per trial *)

Section objective_dirs.
Import control_trials.

(** X12: the runs of one study never share a directory: for one
    [model_path] and one [run_name], trials with different numbers get
    different values of [args.output_dir], each of them under
    [model_path]. *)
Theorem objective_output_dir_per_trial (model_path run_name : string)
    (i j : nat) :
  i ≠ j →
  objective_output_dir model_path run_name i
  ≠ objective_output_dir model_path run_name j
  ∧ ∃ name, objective_output_dir model_path run_name i
            = model_path +:+ "/" +:+ name.
Proof.
  intros Hij. split; [|by eexists].
  unfold objective_output_dir, objective_run_name. intros Heq.
  apply Hij.
  do 4 apply (inj (String.append _)) in Heq.
  by apply (inj pretty) in Heq.
Qed.

End objective_dirs.

(** Trials 0 and 1 of the study of the script's main part. *)
Lemma objective_output_dir_per_trial_witness :
  control_trials.objective_output_dir
    "/cronus_data/ssmith/models/blogsUD/trials/control_trials"
    "control_trials" 0
  ≠ control_trials.objective_output_dir
      "/cronus_data/ssmith/models/blogsUD/trials/control_trials"
      "control_trials" 1.
Proof.
  apply (objective_output_dir_per_trial
           "/cronus_data/ssmith/models/blogsUD/trials/control_trials"
           "control_trials" 0 1).
  lia.
Defined.

(** ** [model_init]: the two flags *)

Section flags.
Import trials_eval_callback.

(** X13: of the strategy string only two values are told apart.  "no_load"
    alone turns [use_trained] off and "load_repeat" alone turns [repeat]
    on, so the repeat is never asked for without the trained embeddings;
    every other string, "load_512" and any misspelling alike, gives
    trained embeddings without repeat. *)
Theorem model_init_flags (pos_embd_strat : string) :
  (use_trained pos_embd_strat = false ↔ pos_embd_strat = "no_load")
  ∧ (repeat_flag pos_embd_strat = true ↔ pos_embd_strat = "load_repeat")
  ∧ (repeat_flag pos_embd_strat = true → use_trained pos_embd_strat = true)
  ∧ (pos_embd_strat ≠ "no_load" → pos_embd_strat ≠ "load_repeat" →
     use_trained pos_embd_strat = use_trained "load_512"
     ∧ repeat_flag pos_embd_strat = repeat_flag "load_512").
Proof.
  unfold use_trained, repeat_flag.
  destruct (String.eqb_spec pos_embd_strat "no_load") as [Hno|Hno];
    destruct (String.eqb_spec pos_embd_strat "load_repeat") as [Hrep|Hrep];
    try (subst; discriminate Hrep); repeat split; try done;
    congruence.
Qed.

End flags.

(** A misspelt strategy acts as "load_512" does. *)
Lemma model_init_flags_witness :
  trials_eval_callback.use_trained "load_repaet" = true
  ∧ trials_eval_callback.repeat_flag "load_repaet" = false.
Proof.
  destruct (model_init_flags "load_repaet") as (_ & _ & _ & Hother).
  destruct Hother as [-> ->]; done.
Defined.

(** ** Where the callbacks write *)

Section writes.
Context {float : Type}.
Variable float_str : float → string.
Variable json_dumps : option (gmap string (pyval float)) → string.
Import trials_eval_callback.




















End writes.

